(** * basic_bot.py: order normalisation and request signing

    A shallow embedding of [src/basic_bot.py], the command-line client that
    places one MARKET or LIMIT order on the Binance Futures testnet.

    - Python [float] is IEEE 754 binary64; it is modelled by the Standard
      Library's [spec_float] at precision 53 and maximal exponent 1024, so
      that every rounding of [value / step] and of [k * step] is the one the
      interpreter performs.
    - Python [str] is modelled by [string], read as the UTF-8 bytes of the
      text (the program only handles ASCII text).
    - A [dict] is an association list in insertion order: [urlencode] walks
      the items in that order, so the order is observable.
    - Exceptions are values of [exn]; code that may raise returns [result].
    - The network and the standard output are threaded through a small
      state-and-error monad [M]; the exchange is an oracle that answers each
      request.
    - Calls to [logger] are left out: they write to the log file and the
      console and never change the control flow. *)

From Stdlib Require Import ZArith QArith Qround List String Ascii Bool Lia.
From Stdlib Require Import DecimalString.
From Stdlib Require Import Floats.SpecFloat.
Import ListNotations.

Local Open Scope Z_scope.

(** ** Binary64 arithmetic as Python performs it *)

Module F64.

Definition prec : Z := 53.
Definition emax : Z := 1024.

Definition float : Type := spec_float.

Definition zero : float := S754_zero false.
Definition nan : float := S754_nan.
Definition inf : float := S754_infinity false.

Definition mul (x y : float) : float := SFmul prec emax x y.
Definition div (x y : float) : float := SFdiv prec emax x y.
Definition ltb (x y : float) : bool := SFltb x y.
Definition leb (x y : float) : bool := SFleb x y.
Definition eqb (x y : float) : bool := SFeqb x y.

(** [float(k)] for a Python [int]: the nearest double, ties to even;
    an infinite result is what CPython reports as an overflow. *)
Definition of_int (k : Z) : float := binary_normalize prec emax k 0 false.

(** The decimal literal [m / 10^k], rounded once: what [float("0.29")]
    returns for [dec 29 2].  Both operands are exact doubles as long as
    [m] and [10^k] stay below [2^53]. *)
Definition dec (m k : Z) : float := div (of_int m) (of_int (10 ^ k)).

(** [bool(x)]: every float but the two zeros is truthy (NaN included). *)
Definition truthy (x : float) : bool :=
  match x with
  | S754_zero _ => false
  | _ => true
  end.

Definition is_finite (x : float) : bool :=
  match x with
  | S754_zero _ | S754_finite _ _ _ => true
  | _ => false
  end.

(** The integer [floor(x)] of a finite float, [None] on NaN and the
    infinities. *)
Definition floor (x : float) : option Z :=
  match x with
  | S754_zero _ => Some 0
  | S754_finite s m e =>
      let sm := if s then Z.neg m else Z.pos m in
      Some (if 0 <=? e then sm * 2 ^ e else sm / 2 ^ (- e))
  | S754_infinity _ | S754_nan => None
  end.

(** The integer part of [x] towards zero, as [int(x)] takes it. *)
Definition trunc (x : float) : option Z :=
  match x with
  | S754_zero _ => Some 0
  | S754_finite s m e =>
      let a := if 0 <=? e then Z.pos m * 2 ^ e else Z.pos m / 2 ^ (- e) in
      Some (if s then - a else a)
  | S754_infinity _ | S754_nan => None
  end.

End F64.

(** ** Decimal text of numbers: [str(n)] and [str(x)] *)

Module Repr.

(** [str(n)] for a Python [int]. *)
Definition of_int (n : Z) : string := NilZero.string_of_int (Z.to_int n).

(** Sign of [D * 10^k - num / den], for [den > 0]. *)
Definition cmp10 (D k num den : Z) : comparison :=
  if 0 <=? k then D * 10 ^ k * den ?= num else D * den ?= num * 10 ^ (- k).

(** Shortest decimal [D * 10^k] that reads back as [m * 2^e]: the
    coarsest power of ten with a multiple inside the rounding interval of
    the float, and there the multiple nearest to it (ties to the even
    one).  The interval is closed when [m] is even. *)
Fixpoint shortest (fuel : nat) (m e k : Z) : Z * Z :=
  match fuel with
  | O => (0, 0)
  | S fuel' =>
      let up := 2 ^ Z.max e 0 in
      let den := 4 * 2 ^ Z.max (- e) 0 in
      let x := 4 * m * up in
      let below := if (m =? 2 ^ 52) && (-1074 <? e) then 1 else 2 in
      let lo := (4 * m - below) * up in
      let hi := (4 * m + 2) * up in
      let D := if 0 <=? k then x / (den * 10 ^ k) else x * 10 ^ (- k) / den in
      let inside c bound :=
        match c with
        | Eq => Z.even m
        | _ => match c, bound with Gt, Gt | Lt, Lt => true | _, _ => false end
        end in
      let lo_ok := inside (cmp10 D k lo den) Gt in
      let hi_ok := inside (cmp10 (D + 1) k hi den) Lt in
      if lo_ok && hi_ok then
        match cmp10 (2 * D + 1) k (2 * x) den with
        | Gt => (D, k)
        | Lt => (D + 1, k)
        | Eq => (if Z.even D then D else D + 1, k)
        end
      else if lo_ok then (D, k)
      else if hi_ok then (D + 1, k)
      else shortest fuel' m e (k - 1)
  end.

Definition zeros (n : Z) : string := string_of_list_ascii (repeat "0"%char (Z.to_nat n)).

Definition finite (m e : Z) : string :=
  let b := Z.log2 m + 1 + e in
  let '(D, k) := shortest 400 m e (b * 30103 / 100000 + 2) in
  let ds := of_int D in
  let n := Z.of_nat (String.length ds) in
  let decpt := n + k in
  if (decpt <=? -4) || (16 <? decpt) then
    let x := decpt - 1 in
    let mant := if n =? 1 then ds
                else (substring 0 1 ds ++ "." ++ substring 1 (String.length ds - 1) ds)%string in
    let ax := of_int (Z.abs x) in
    let sgn := if x <? 0 then "e-"%string else "e+"%string in
    let fill := if Z.abs x <? 10 then "0"%string else ""%string in
    (mant ++ sgn ++ fill ++ ax)%string
  else if decpt <=? 0 then ("0." ++ zeros (- decpt) ++ ds)%string
  else if n <=? decpt then (ds ++ zeros (decpt - n) ++ ".0")%string
  else (substring 0 (Z.to_nat decpt) ds ++ "."
          ++ substring (Z.to_nat decpt) (Z.to_nat (n - decpt)) ds)%string.

(** [str(x)], which is [repr(x)], for a Python [float]. *)
Definition of_float (x : spec_float) : string :=
  match x with
  | S754_nan => "nan"
  | S754_infinity s => if s then "-inf" else "inf"
  | S754_zero s => if s then "-0.0" else "0.0"
  | S754_finite s m e => ((if s then "-" else "") ++ finite (Z.pos m) e)%string
  end.

End Repr.

(** ** SHA-256 and HMAC, as [hashlib] and [hmac] compute them *)

Module Sha256.

(** 32-bit words are integers in [0, 2^32); sums wrap around. *)
Definition w32 (x : Z) : Z := x mod 2 ^ 32.
Definition add32 (x y : Z) : Z := w32 (x + y).
Definition rotr (n x : Z) : Z :=
  Z.lor (Z.shiftr x n) (w32 (Z.shiftl x (32 - n))).
Definition not32 (x : Z) : Z := Z.lxor x (2 ^ 32 - 1).

Definition Ch (x y z : Z) : Z := Z.lxor (Z.land x y) (Z.land (not32 x) z).
Definition Maj (x y z : Z) : Z :=
  Z.lxor (Z.lxor (Z.land x y) (Z.land x z)) (Z.land y z).
Definition Sum0 (x : Z) : Z := Z.lxor (Z.lxor (rotr 2 x) (rotr 13 x)) (rotr 22 x).
Definition Sum1 (x : Z) : Z := Z.lxor (Z.lxor (rotr 6 x) (rotr 11 x)) (rotr 25 x).
Definition sig0 (x : Z) : Z := Z.lxor (Z.lxor (rotr 7 x) (rotr 18 x)) (Z.shiftr x 3).
Definition sig1 (x : Z) : Z := Z.lxor (Z.lxor (rotr 17 x) (rotr 19 x)) (Z.shiftr x 10).

(** The constants are the leading 32 fraction bits of the square roots
    (initial hash value) and cube roots (round constants) of the first
    primes; they are computed rather than tabulated. *)
Definition is_prime (n : Z) : bool :=
  forallb (fun d => negb (n mod d =? 0)) (map Z.of_nat (seq 2 (Z.to_nat n - 2))).

Definition primes : list Z :=
  filter is_prime (map Z.of_nat (seq 2 310)).

(** Greatest [r < 2^bits] with [r ^ p <= n], found bit by bit. *)
Fixpoint iroot (p : Z) (bits : nat) (n r : Z) : Z :=
  match bits with
  | O => r
  | S b =>
      let c := r + 2 ^ Z.of_nat b in
      iroot p b n (if c ^ p <=? n then c else r)
  end.

Definition frac_root (p q : Z) : Z := w32 (iroot p 40 (q * 2 ^ (32 * p)) 0).

Definition H0 : list Z := map (frac_root 2) (firstn 8 primes).
Definition K : list Z := map (frac_root 3) primes.

Fixpoint be_bytes (n : nat) (x : Z) : list Z :=
  match n with
  | O => []
  | S n' => Z.shiftr x (8 * Z.of_nat n') mod 256 :: be_bytes n' x
  end.

Definition pad (msg : list Z) : list Z :=
  let len := Z.of_nat (List.length msg) in
  msg ++ 128 :: repeat 0 (Z.to_nat ((55 - len) mod 64)) ++ be_bytes 8 (8 * len).

Fixpoint words (bs : list Z) : list Z :=
  match bs with
  | a :: b :: c :: d :: rest => ((a * 256 + b) * 256 + c) * 256 + d :: words rest
  | _ => []
  end.

Fixpoint blocks (fuel : nat) (ws : list Z) : list (list Z) :=
  match fuel, ws with
  | S f, _ :: _ => firstn 16 ws :: blocks f (skipn 16 ws)
  | _, _ => []
  end.

(** Message schedule: [win] holds the sixteen words before the next one. *)
Fixpoint extend (n : nat) (win : list Z) : list Z :=
  match n with
  | O => []
  | S n' =>
      let x := add32 (add32 (sig1 (nth 14 win 0)) (nth 9 win 0))
                     (add32 (sig0 (nth 1 win 0)) (nth 0 win 0)) in
      x :: extend n' (tl win ++ [x])
  end.

Definition schedule (block : list Z) : list Z := block ++ extend 48 block.

Record regs := Regs { ra : Z; rb : Z; rc : Z; rd : Z; re : Z; rf : Z; rg : Z; rh : Z }.

Definition round (s : regs) (kw : Z * Z) : regs :=
  let t1 := add32 (add32 (add32 (rh s) (Sum1 (re s))) (Ch (re s) (rf s) (rg s)))
                  (add32 (fst kw) (snd kw)) in
  let t2 := add32 (Sum0 (ra s)) (Maj (ra s) (rb s) (rc s)) in
  Regs (add32 t1 t2) (ra s) (rb s) (rc s) (add32 (rd s) t1) (re s) (rf s) (rg s).

Definition regs_of (h : list Z) : regs :=
  Regs (nth 0 h 0) (nth 1 h 0) (nth 2 h 0) (nth 3 h 0)
       (nth 4 h 0) (nth 5 h 0) (nth 6 h 0) (nth 7 h 0).

Definition list_of (s : regs) : list Z :=
  [ra s; rb s; rc s; rd s; re s; rf s; rg s; rh s].

Definition compress (h : list Z) (block : list Z) : list Z :=
  let s := fold_left round (combine K (schedule block)) (regs_of h) in
  map (fun p => add32 (fst p) (snd p)) (combine h (list_of s)).

Definition digest (msg : list Z) : list Z :=
  let ws := words (pad msg) in
  flat_map (be_bytes 4) (fold_left compress (blocks (List.length ws) ws) H0).

(** [hmac.new(key, msg, hashlib.sha256).digest()] *)
Definition block_size : nat := 64.

Definition hmac (key msg : list Z) : list Z :=
  let k0 := if (block_size <? List.length key)%nat then digest key else key in
  let k := k0 ++ repeat 0 (block_size - List.length k0) in
  let inner := digest (map (Z.lxor 54) k ++ msg) in
  digest (map (Z.lxor 92) k ++ inner).

Definition hex_digit (d : Z) : ascii :=
  ascii_of_nat (Z.to_nat (if d <? 10 then 48 + d else 87 + d)).

Definition hex (bs : list Z) : string :=
  string_of_list_ascii (flat_map (fun b => [hex_digit (b / 16); hex_digit (b mod 16)]) bs).

Definition bytes_of (s : string) : list Z :=
  map (fun c => Z.of_nat (nat_of_ascii c)) (list_ascii_of_string s).

End Sha256.

(** ** Python values: exceptions, strings, dictionaries *)

(** The [ValueError]s the program can meet, told apart by their message. *)
Inductive value_error : Type :=
| RulesMissing        (* "Failed to fetch step_size or tick_size for symbol" *)
| NotionalTooLow (notional : F64.float) (minimum : option F64.float)
                      (* "Order notional {..} below minimum {..}" *)
| PriceRequired       (* "Limit order requires --price" *)
| NaNToInteger.       (* math.floor or int applied to NaN *)

Inductive exn : Type :=
| RequestException    (* requests: connection, timeout, HTTP status, body *)
| StopIteration       (* next() on an exhausted generator *)
| KeyError (key : string)
| TypeError           (* float * None *)
| ZeroDivisionError
| OverflowError       (* floor or int of an infinity, int too large *)
| ValueError (why : value_error).

Inductive result (A : Type) : Type :=
| Ok (a : A)
| Raise (e : exn).

Arguments Ok {A} a.
Arguments Raise {A} e.

Definition upper_char (c : ascii) : ascii :=
  let n := nat_of_ascii c in
  if ((97 <=? n) && (n <=? 122))%nat then ascii_of_nat (n - 32) else c.

(** [s.upper()] on ASCII text. *)
Fixpoint upper (s : string) : string :=
  match s with
  | EmptyString => EmptyString
  | String c rest => String (upper_char c) (upper rest)
  end.

(** [s.rstrip("/")] *)
Fixpoint rstrip_slash (s : string) : string :=
  match s with
  | EmptyString => EmptyString
  | String c rest =>
      match rstrip_slash rest with
      | EmptyString => if Ascii.eqb c "/" then EmptyString else String c EmptyString
      | kept => String c kept
      end
  end.

(** Values stored in the request parameters. *)
Inductive value : Type :=
| VStr (s : string)
| VInt (n : Z).

Definition str (v : value) : string :=
  match v with
  | VStr s => s
  | VInt n => Repr.of_int n
  end.

(** A [dict] with string keys, in insertion order, keys unique. *)
Definition dict : Type := list (string * value).

Fixpoint dict_get (k : string) (d : dict) : option value :=
  match d with
  | [] => None
  | (k', v) :: rest => if String.eqb k k' then Some v else dict_get k rest
  end.

(** [d[k] = v]: the value is replaced in place, a new key goes last. *)
Fixpoint dict_set (k : string) (v : value) (d : dict) : dict :=
  match d with
  | [] => [(k, v)]
  | (k', v') :: rest =>
      if String.eqb k k' then (k, v) :: rest else (k', v') :: dict_set k v rest
  end.

(** [d.update(other)] *)
Definition dict_update (d other : dict) : dict :=
  fold_left (fun acc kv => dict_set (fst kv) (snd kv) acc) other d.

(** Python's [==] on dictionaries: same keys with the same values,
    whatever the insertion order. *)
Definition value_eqb (a b : value) : bool :=
  match a, b with
  | VStr s, VStr t => String.eqb s t
  | VInt n, VInt m => n =? m
  | _, _ => false
  end.

Definition dict_eqb (d1 d2 : dict) : bool :=
  (List.length d1 =? List.length d2)%nat
  && forallb (fun kv => match dict_get (fst kv) d2 with
                        | Some v => value_eqb (snd kv) v
                        | None => false
                        end) d1.

(** ** [urllib.parse.urlencode] *)

Module Url.

Definition unreserved (c : ascii) : bool :=
  let n := nat_of_ascii c in
  ((48 <=? n) && (n <=? 57) || (65 <=? n) && (n <=? 90)
   || (97 <=? n) && (n <=? 122)
   || (n =? 45) || (n =? 46) || (n =? 95) || (n =? 126))%nat.

Definition HEX (d : nat) : ascii :=
  ascii_of_nat (if (d <? 10)%nat then 48 + d else 55 + d).

(** [quote_plus]: a space becomes [+], unreserved characters stay, every
    other byte becomes [%XX]. *)
Fixpoint quote_plus (s : string) : string :=
  match s with
  | EmptyString => EmptyString
  | String c rest =>
      let n := nat_of_ascii c in
      if Ascii.eqb c " " then String "+" (quote_plus rest)
      else if unreserved c then String c (quote_plus rest)
      else String "%" (String (HEX (n / 16)) (String (HEX (n mod 16)) (quote_plus rest)))
  end.

(** [urlencode(params, doseq=True)] on string and integer values: the
    items in the order of the dictionary, joined by [&]. *)
Definition urlencode (params : dict) : string :=
  String.concat "&"
    (map (fun kv => (quote_plus (fst kv) ++ "=" ++ quote_plus (str (snd kv)))%string)
         params).

End Url.

(** ** The exchange and the process state *)

(** One entry of [symbol_info["filters"]].  A field is [None] when the key
    is absent; a present [stepSize] or [tickSize] holds the float that
    [float(...)] returns for it.  [minNotional] is [None] when the key is
    absent or holds a falsy value, the two cases [f.get(..) or 0] merges. *)
Record filter : Type := Filter {
  filterType : string;
  stepSize : option F64.float;
  tickSize : option F64.float;
  minNotional : option F64.float
}.

Record symbol_info : Type := SymbolInfo {
  symbol : string;
  filters : list filter
}.

(** A decoded response body: the exchange-information document, or any
    other JSON object (an order acknowledgement), kept as its fields. *)
Inductive payload : Type :=
| ExchangeInfo (symbols : list symbol_info)
| Object (fields : list (string * string)).

Inductive http_method : Type := GET | POST.

Record request : Type := Request {
  req_method : http_method;
  req_url : string;
  req_headers : list (string * string);
  req_params : option dict
}.

(** What the program prints. *)
Inductive line : Type :=
| JsonDump (order : payload)   (* print(json.dumps(order, indent=2)) *)
| ErrorLine (e : exn).         (* print(f"Error: {e}") *)

(** The outside world: the exchange answers a request with a decoded
    body, or with nothing when [requests] raises (no connection, timeout,
    error status, undecodable body); the clock is what [time.time()]
    returns. *)
Record env : Type := Env {
  server : request -> option payload;
  clock : F64.float
}.

(** What a run leaves behind: the requests sent, oldest first, and the
    lines printed. *)
Record world : Type := World {
  sent : list request;
  printed : list line
}.

Definition start : world := World [] [].

(** Computations that read the environment, change the world and may
    raise. *)
Definition M (A : Type) : Type := env -> world -> result A * world.

Definition ret {A : Type} (a : A) : M A := fun _ w => (Ok a, w).

Definition raise {A : Type} (e : exn) : M A := fun _ w => (Raise e, w).

Definition bind {A B : Type} (m : M A) (k : A -> M B) : M B :=
  fun ev w =>
    match m ev w with
    | (Ok a, w') => k a ev w'
    | (Raise e, w') => (Raise e, w')
    end.

Definition lift {A : Type} (r : result A) : M A := fun _ w => (r, w).

Declare Scope py_scope.
Delimit Scope py_scope with py.
Notation "x <- m ;; k" := (bind m (fun x => k))
  (at level 61, m at next level, right associativity) : py_scope.
Notation "m ;;; k" := (bind m (fun _ => k))
  (at level 61, right associativity) : py_scope.

(** [session.get] / [session.post] followed by [raise_for_status] and
    [resp.json()]. *)
Definition http (r : request) : M payload :=
  fun ev w =>
    (match server ev r with
     | Some body => Ok body
     | None => Raise RequestException
     end,
     World (sent w ++ [r]) (printed w)).

Definition time_time : M F64.float := fun ev w => (Ok (clock ev), w).

Definition print (l : line) : M unit :=
  fun _ w => (Ok tt, World (sent w) (printed w ++ [l])).

(** ** Float operations that may raise *)

(** [x / y] *)
Definition truediv (x y : F64.float) : result F64.float :=
  if F64.truthy y then Ok (F64.div x y) else Raise ZeroDivisionError.

(** [math.floor(x)] *)
Definition math_floor (x : F64.float) : result Z :=
  match F64.floor x with
  | Some k => Ok k
  | None =>
      match x with
      | S754_nan => Raise (ValueError NaNToInteger)
      | _ => Raise OverflowError
      end
  end.

(** [int(x)] *)
Definition int_of_float (x : F64.float) : result Z :=
  match F64.trunc x with
  | Some k => Ok k
  | None =>
      match x with
      | S754_nan => Raise (ValueError NaNToInteger)
      | _ => Raise OverflowError
      end
  end.

(** [k * y] for an [int] [k]: the integer is converted first. *)
Definition int_mul (k : Z) (y : F64.float) : result F64.float :=
  let x := F64.of_int k in
  if F64.is_finite x then Ok (F64.mul x y) else Raise OverflowError.

(** [x * p] where [p] may be [None]. *)
Definition mul_opt (x : F64.float) (p : option F64.float) : result F64.float :=
  match p with
  | Some y => Ok (F64.mul x y)
  | None => Raise TypeError
  end.

(** [not v] for a value that is a float or [None]. *)
Definition falsy (v : option F64.float) : bool :=
  match v with
  | None => true
  | Some x => negb (F64.truthy x)
  end.

(** [v or 0]; the integer [0] compares as the float zero. *)
Definition or_zero (v : option F64.float) : F64.float :=
  match v with
  | Some x => if F64.truthy x then x else F64.zero
  | None => F64.zero
  end.

(** ** [class BinanceFuturesClient] *)

Definition BASE_URL : string := "https://testnet.binancefuture.com".

Record client : Type := Client {
  api_key : string;
  api_secret : list Z;        (* api_secret.encode() *)
  base_url : string;
  recv_window : Z;
  session_headers : list (string * string)
}.

(** [__init__(api_key, api_secret, base_url=BASE_URL, recv_window=5000)] *)
Definition init (key secret url : string) (window : Z) : client :=
  Client key (Sha256.bytes_of secret) (rstrip_slash url) window
         [("X-MBX-APIKEY"%string, key)].

Definition new_client (key secret : string) : client :=
  init key secret BASE_URL 5000.

(** [_sign]: the hex HMAC-SHA256 of the encoded parameters. *)
Definition _sign (self : client) (params : dict) : string :=
  let query_string := Url.urlencode params in
  Sha256.hex (Sha256.hmac (api_secret self) (Sha256.bytes_of query_string)).

(** [_request]: anything but ["POST"] is sent as a GET; a failure of
    [requests] is raised again. *)
Definition _request (self : client) (method path : string)
           (params : option dict) : M payload :=
  let url := (base_url self ++ path)%string in
  let verb := if String.eqb method "POST" then POST else GET in
  http (Request verb url (session_headers self) params).

(** [info["symbols"]] *)
Definition symbols_of (info : payload) : result (list symbol_info) :=
  match info with
  | ExchangeInfo l => Ok l
  | Object _ => Raise (KeyError "symbols")
  end.

(** [get_symbol_info] *)
Definition get_symbol_info (self : client) (sym : string) : M symbol_info :=
  (info <- _request self "GET" "/fapi/v1/exchangeInfo" None ;;
   l <- lift (symbols_of info) ;;
   match find (fun s => String.eqb (symbol s) (upper sym)) l with
   | Some s => ret s
   | None => raise StopIteration
   end)%py.

(** The three rules [place_order] collects from the filters. *)
Record rules : Type := Rules {
  step_size : option F64.float;
  tick_size : option F64.float;
  min_notional : option F64.float
}.

(** The [for f in symbol_info["filters"]] loop. *)
Fixpoint scan_filters (fs : list filter) (r : rules) : result rules :=
  match fs with
  | [] => Ok r
  | f :: rest =>
      if String.eqb (filterType f) "LOT_SIZE" then
        match stepSize f with
        | Some x => scan_filters rest (Rules (Some x) (tick_size r) (min_notional r))
        | None => Raise (KeyError "stepSize")
        end
      else if String.eqb (filterType f) "PRICE_FILTER" then
        match tickSize f with
        | Some x => scan_filters rest (Rules (step_size r) (Some x) (min_notional r))
        | None => Raise (KeyError "tickSize")
        end
      else if String.eqb (filterType f) "MIN_NOTIONAL" then
        let x := match minNotional f with Some x => x | None => F64.zero end in
        scan_filters rest (Rules (step_size r) (tick_size r) (Some x))
      else scan_filters rest r
  end.

(** [round_down(value, step)]: [math.floor(value / step) * step] *)
Definition round_down (v step : F64.float) : result F64.float :=
  match truediv v step with
  | Raise e => Raise e
  | Ok q =>
      match math_floor q with
      | Raise e => Raise e
      | Ok k => int_mul k step
      end
  end.

(** [price = round_down(price, tick_size)] under [if price is not None] *)
Definition round_price (price : option F64.float) (tick : F64.float)
  : result (option F64.float) :=
  match price with
  | None => Ok None
  | Some p =>
      match round_down p tick with
      | Ok p' => Ok (Some p')
      | Raise e => Raise e
      end
  end.

Definition is_limit (order_type : string) : bool :=
  String.eqb (upper order_type) "LIMIT".

(** The notional test of a LIMIT order; the product is taken first. *)
Definition check_notional (order_type : string) (quantity : F64.float)
           (price min_n : option F64.float) : result unit :=
  if is_limit order_type then
    match mul_opt quantity price with
    | Raise e => Raise e
    | Ok notional =>
        if F64.ltb notional (or_zero min_n)
        then Raise (ValueError (NotionalTooLow notional min_n))
        else Ok tt
    end
  else Ok tt.

(** The dictionary literal [params = {...}]. *)
Definition base_params (self : client) (sym side order_type : string)
           (quantity : F64.float) (timestamp : Z) : dict :=
  [ ("symbol"%string, VStr (upper sym));
    ("side"%string, VStr (upper side));
    ("type"%string, VStr (upper order_type));
    ("quantity"%string, VStr (Repr.of_float quantity));
    ("timestamp"%string, VInt timestamp);
    ("recvWindow"%string, VInt (recv_window self)) ].

(** The [if order_type.upper() == "LIMIT"] block after the literal. *)
Definition add_limit_fields (order_type : string) (price : option F64.float)
           (time_in_force : string) (params : dict) : result dict :=
  if is_limit order_type then
    match price with
    | None => Raise (ValueError PriceRequired)
    | Some p =>
        Ok (dict_update params
              [ ("price"%string, VStr (Repr.of_float p));
                ("timeInForce"%string, VStr time_in_force) ])
    end
  else Ok params.

(** [place_order] from the test of the rules on (lines 85 to 114): [r]
    holds what the loop over the filters found.  A rule that is [None] is
    falsy, so both rules are floats once the first test is passed. *)
Definition submit (self : client) (sym side order_type : string)
           (quantity : F64.float) (price : option F64.float)
           (time_in_force : string) (r : rules) : M payload :=
  (if falsy (step_size r) || falsy (tick_size r)
   then raise (ValueError RulesMissing)
   else
     match step_size r, tick_size r with
     | Some step, Some tick =>
         quantity' <- lift (round_down quantity step) ;;
         price' <- lift (round_price price tick) ;;
         lift (check_notional order_type quantity' price' (min_notional r)) ;;;
         now <- time_time ;;
         timestamp <- lift (int_of_float (F64.mul now (F64.of_int 1000))) ;;
         params <- lift (add_limit_fields order_type price' time_in_force
                           (base_params self sym side order_type quantity' timestamp)) ;;
         _request self "POST" "/fapi/v1/order"
                  (Some (dict_set "signature" (VStr (_sign self params)) params))
     | _, _ => raise (ValueError RulesMissing)
     end)%py.

(** [place_order]: fetch the symbol, scan its filters, then [submit]. *)
Definition place_order (self : client) (sym side order_type : string)
           (quantity : F64.float) (price : option F64.float)
           (time_in_force : string) : M payload :=
  (symbol_info <- get_symbol_info self sym ;;
   r <- lift (scan_filters (filters symbol_info) (Rules None None None)) ;;
   submit self sym side order_type quantity price time_in_force r)%py.

(** ** The command line *)

(** The namespace [parse_args] returns. *)
Record args : Type := Args {
  arg_api_key : string;
  arg_api_secret : string;
  arg_symbol : string;
  arg_side : string;
  arg_type : string;
  arg_quantity : F64.float;
  arg_price : option F64.float;
  arg_timeinforce : string
}.

(** [main] after [parse_args]: the exit status of the process and the
    world it leaves.  Returning from [main] ends the process with status
    0; [sys.exit(1)] ends it with status 1. *)
Definition main (a : args) (ev : env) : Z * world :=
  let c := new_client (arg_api_key a) (arg_api_secret a) in
  match place_order c (arg_symbol a) (arg_side a) (arg_type a)
          (arg_quantity a) (arg_price a) (arg_timeinforce a) ev start with
  | (Ok order, w) => (0, snd (print (JsonDump order) ev w))
  | (Raise e, w) => (1, snd (print (ErrorLine e) ev w))
  end.

(** ** Vocabulary of the statements *)

(** The two requests the program can send. *)
Definition info_request (self : client) : request :=
  Request GET (base_url self ++ "/fapi/v1/exchangeInfo")%string
          (session_headers self) None.

Definition order_request (self : client) (params : dict) : request :=
  Request POST (base_url self ++ "/fapi/v1/order")%string
          (session_headers self) (Some params).

(** The rules [place_order] holds after its loop, when the exchange
    answers the information request. *)
Definition published_rules (self : client) (sym : string) (ev : env)
  : result rules :=
  match server ev (info_request self) with
  | None => Raise RequestException
  | Some info =>
      match symbols_of info with
      | Raise e => Raise e
      | Ok l =>
          match find (fun s => String.eqb (symbol s) (upper sym)) l with
          | None => Raise StopIteration
          | Some si => scan_filters (filters si) (Rules None None None)
          end
      end
  end.

(** The parameter dictionaries of the POST requests of a run. *)
Definition posted (w : world) : list dict :=
  flat_map (fun r => match req_method r, req_params r with
                     | POST, Some params => [params]
                     | _, _ => []
                     end) (sent w).

Definition is_market (order_type : string) : bool :=
  String.eqb (upper order_type) "MARKET".

(** The world once the information request has gone out. *)
Definition after_info (self : client) (w : world) : world :=
  World (sent w ++ [info_request self]) (printed w).

(** The parameters as sent: [params["signature"] = self._sign(params)]. *)
Definition signed (self : client) (params : dict) : dict :=
  dict_set "signature" (VStr (_sign self params)) params.

(** The last step of [place_order], the POST of the signed parameters. *)
Definition send_order (self : client) (params : dict) (ev : env) (w : world)
  : result payload * world :=
  (match server ev (order_request self (signed self params)) with
   | Some body => Ok body
   | None => Raise RequestException
   end,
   World (sent w ++ [order_request self (signed self params)]) (printed w)).

(** The validation errors: the three [ValueError]s [place_order] raises
    itself. *)
Definition validation (e : exn) : bool :=
  match e with
  | ValueError RulesMissing
  | ValueError (NotionalTooLow _ _)
  | ValueError PriceRequired => true
  | _ => false
  end.


(** The dictionaries [place_order] builds before it signs them. *)
Definition built_by_place_order (p : dict) : Prop :=
  exists self sym side ot q ts price tif,
    add_limit_fields ot price tif (base_params self sym side ot q ts) = Ok p.

(** ** Rounding in exact arithmetic

    The rounding the specification describes, on rational numbers: the
    arithmetic of decimals, not the program's.  It is the reference the
    binary64 [round_down] of the program is compared with. *)

Module Exact.

Definition round_down (v s : Q) : Q := (inject_Z (Qfloor (v / s)) * s)%Q.

End Exact.

(** ** A sample exchange, for the examples *)

Module Sample.

Definition btc : symbol_info :=
  SymbolInfo "BTCUSDT"
    [ Filter "PRICE_FILTER" None (Some (F64.dec 1 2)) None;
      Filter "LOT_SIZE" (Some (F64.dec 1 3)) None None;
      Filter "MARKET_LOT_SIZE" (Some (F64.dec 1 3)) None None;
      Filter "MIN_NOTIONAL" None None (Some (F64.dec 5 0)) ].

(** A symbol whose MIN_NOTIONAL filter names its bound [notional], as the
    futures exchange does: the key [minNotional] is absent. *)
Definition eth : symbol_info :=
  SymbolInfo "ETHUSDT"
    [ Filter "PRICE_FILTER" None (Some (F64.dec 1 2)) None;
      Filter "LOT_SIZE" (Some (F64.dec 1 3)) None None;
      Filter "MIN_NOTIONAL" None None None ].

(** A symbol without a LOT_SIZE filter. *)
Definition xrp : symbol_info :=
  SymbolInfo "XRPUSDT"
    [ Filter "PRICE_FILTER" None (Some (F64.dec 1 4)) None ].

Definition exchange (r : request) : option payload :=
  match req_method r with
  | GET => Some (ExchangeInfo [eth; btc; xrp])
  | POST => Some (Object [("orderId"%string, "1"%string);
                          ("status"%string, "NEW"%string)])
  end.

Definition ev : env := Env exchange (F64.dec 1700000000123 3).

Definition bot : client := new_client "key" "secret".

End Sample.

(** ** Vocabulary of the further properties *)

(** A run of [n] slashes. *)
Definition slashes (n : nat) : string :=
  string_of_list_ascii (repeat "/"%char n).

(** The filter types the loop of [place_order] has a branch for. *)
Definition relevant (f : filter) : bool :=
  String.eqb (filterType f) "LOT_SIZE"
  || String.eqb (filterType f) "PRICE_FILTER"
  || String.eqb (filterType f) "MIN_NOTIONAL".


(** The keys of the order fields, in the order [place_order] inserts
    them. *)
Definition order_keys (order_type : string) : list string :=
  ["symbol"; "side"; "type"; "quantity"; "timestamp"; "recvWindow"]%string
  ++ (if is_limit order_type then ["price"; "timeInForce"]%string else []).

(** The characters [0] to [9] and [a] to [f]. *)
Definition is_lower_hex (c : ascii) : bool :=
  let n := nat_of_ascii c in
  ((48 <=? n) && (n <=? 57) || (97 <=? n) && (n <=? 102))%nat.









(** ** Further sample exchanges *)

Module Cases.

(** A symbol whose LOT_SIZE entry has lost its [stepSize]. *)
Definition ada : symbol_info :=
  SymbolInfo "ADAUSDT"
    [ Filter "PRICE_FILTER" None (Some (F64.dec 1 4)) None;
      Filter "LOT_SIZE" None None None ].

(** A symbol whose step size is published as ["0"]. *)
Definition sol : symbol_info :=
  SymbolInfo "SOLUSDT"
    [ Filter "PRICE_FILTER" None (Some (F64.dec 1 2)) None;
      Filter "LOT_SIZE" (Some F64.zero) None None ].

Definition exchange (r : request) : option payload :=
  match req_method r with
  | GET => Some (ExchangeInfo [ada; sol])
  | POST => Some (Object [("orderId"%string, "2"%string)])
  end.

Definition ev : env := Env exchange (F64.dec 1700000000123 3).

(** No answer to any request. *)
Definition offline : env := Env (fun _ => None) (F64.dec 1700000000123 3).

End Cases.

(** * Properties *)

(** ** The library models agree with Python on known values *)

Example sha256_abc :
  Sha256.hex (Sha256.digest (Sha256.bytes_of "abc")) =
  "ba7816bf8f01cfea414140de5dae2223b00361a396177a9cb410ff61f20015ad"%string.
Proof. vm_compute. reflexivity. Qed.

Example hmac_sha256_fox :
  Sha256.hex (Sha256.hmac (Sha256.bytes_of "key")
                (Sha256.bytes_of "The quick brown fox jumps over the lazy dog")) =
  "f7bc83f430538424b13298e6aa6fb143ef4d59a14946175997479dbc2d1a3cd8"%string.
Proof. vm_compute. reflexivity. Qed.

Example float_of_029 :
  F64.dec 29 2 = S754_finite false 5224175567749775 (-54).
Proof. vm_compute. reflexivity. Qed.

Example repr_examples :
  map Repr.of_float
      [F64.dec 29 2; F64.dec 1 1; F64.of_int 100; F64.of_int (10 ^ 16);
       F64.dec 1 5; F64.mul (F64.of_int 7) (F64.dec 1 1)] =
  ["0.29"; "0.1"; "100.0"; "1e+16"; "1e-05"; "0.7000000000000001"]%string.
Proof. vm_compute. reflexivity. Qed.

Example urlencode_example :
  Url.urlencode [("a b"%string, VStr "x/y+z&=~"); ("n"%string, VInt (-5))] =
  "a+b=x%2Fy%2Bz%26%3D~&n=-5"%string.
Proof. vm_compute. reflexivity. Qed.

(** A MARKET order on the sample exchange: the signature is the one
    CPython computes for the same query string and secret. *)
Example market_order_run :
  posted (snd (place_order Sample.bot "btcusdt" "buy" "market"
                 (F64.dec 12345 4) None "GTC" Sample.ev start)) =
  [ [ ("symbol", VStr "BTCUSDT"); ("side", VStr "BUY"); ("type", VStr "MARKET");
      ("quantity", VStr "1.234"); ("timestamp", VInt 1700000000123);
      ("recvWindow", VInt 5000);
      ("signature",
       VStr "95cf09f6c2347aa54af2f19358dd24c42d5994b35091349cc33a6c59e9acbe01") ] ]%string.
Proof. vm_compute. reflexivity. Qed.

(** ** How a run of [place_order] unfolds *)

Lemma place_order_fetch :
  forall self sym side ot q p tif ev w,
    place_order self sym side ot q p tif ev w =
    match published_rules self sym ev with
    | Raise e => (Raise e, after_info self w)
    | Ok r => submit self sym side ot q p tif r ev (after_info self w)
    end.
Proof.
  intros. unfold place_order, get_symbol_info, published_rules, _request, http,
    bind, lift, info_request, after_info. simpl.
  destruct (server ev _) as [info|]; [|reflexivity].
  destruct (symbols_of info) as [l|e]; [|reflexivity].
  destruct (find _ l) as [si|]; [|reflexivity].
  unfold ret.
  destruct (scan_filters _ _); reflexivity.
Qed.

Lemma submit_rules_missing :
  forall self sym side ot q p tif r ev w,
    falsy (step_size r) || falsy (tick_size r) = true ->
    submit self sym side ot q p tif r ev w = (Raise (ValueError RulesMissing), w).
Proof.
  intros * H. unfold submit. rewrite H. reflexivity.
Qed.

Lemma submit_steps :
  forall self sym side ot q p tif step tick mn ev w,
    F64.truthy step = true ->
    F64.truthy tick = true ->
    submit self sym side ot q p tif (Rules (Some step) (Some tick) mn) ev w =
    match round_down q step with
    | Raise e => (Raise e, w)
    | Ok q' =>
        match round_price p tick with
        | Raise e => (Raise e, w)
        | Ok p' =>
            match check_notional ot q' p' mn with
            | Raise e => (Raise e, w)
            | Ok _ =>
                match int_of_float (F64.mul (clock ev) (F64.of_int 1000)) with
                | Raise e => (Raise e, w)
                | Ok ts =>
                    match add_limit_fields ot p' tif
                            (base_params self sym side ot q' ts) with
                    | Raise e => (Raise e, w)
                    | Ok params => send_order self params ev w
                    end
                end
            end
        end
    end.
Proof.
  intros * Hs Ht. unfold submit, falsy. simpl. rewrite Hs, Ht. simpl.
  unfold bind, lift, time_time, send_order, _request, http, order_request, signed.
  destruct (round_down q step); [|reflexivity].
  destruct (round_price p tick); [|reflexivity].
  destruct (check_notional _ _ _ _); [|reflexivity].
  destruct (int_of_float _); [|reflexivity].
  destruct (add_limit_fields _ _ _ _); reflexivity.
Qed.

Lemma usable_rules :
  forall r,
    falsy (step_size r) || falsy (tick_size r) = false ->
    exists step tick,
      r = Rules (Some step) (Some tick) (min_notional r)
      /\ F64.truthy step = true /\ F64.truthy tick = true.
Proof.
  intros [[s|] [t|] mn]; simpl; intros H; try discriminate.
  - apply orb_false_elim in H as [Hs Ht].
    apply negb_false_iff in Hs, Ht. exists s, t. auto.
  - rewrite orb_true_r in H. discriminate.
Qed.

(** ** Which step raises what *)

Lemma scan_filters_error :
  forall fs r e, scan_filters fs r = Raise e -> validation e = false.
Proof.
  induction fs as [|f fs IH]; intros r e H; simpl in H; [discriminate|].
  destruct (String.eqb (filterType f) "LOT_SIZE").
  { destruct (stepSize f); [eauto|]. inversion H. reflexivity. }
  destruct (String.eqb (filterType f) "PRICE_FILTER").
  { destruct (tickSize f); [eauto|]. inversion H. reflexivity. }
  destruct (String.eqb (filterType f) "MIN_NOTIONAL"); eauto.
Qed.

Lemma published_rules_error :
  forall self sym ev e,
    published_rules self sym ev = Raise e -> validation e = false.
Proof.
  intros * H. unfold published_rules in H.
  destruct (server ev _) as [info|]; [|inversion H; reflexivity].
  destruct info; simpl in H; [|inversion H; reflexivity].
  destruct (find _ _); [|inversion H; reflexivity].
  eapply scan_filters_error; eassumption.
Qed.

Lemma round_down_error :
  forall v s e, round_down v s = Raise e -> validation e = false.
Proof.
  intros v s e. unfold round_down, truediv, math_floor, int_mul.
  destruct (F64.truthy s); [|intros H; inversion H; reflexivity].
  destruct (F64.floor (F64.div v s)).
  - destruct (F64.is_finite _); intros H; inversion H; reflexivity.
  - destruct (F64.div v s); intros H; inversion H; reflexivity.
Qed.

Lemma round_price_error :
  forall p t e, round_price p t = Raise e -> validation e = false.
Proof.
  intros [p|] t e; simpl; [|discriminate].
  destruct (round_down p t) eqn:H; [discriminate|].
  intros E; inversion E; subst. eapply round_down_error; eassumption.
Qed.

Lemma int_of_float_error :
  forall x e, int_of_float x = Raise e -> validation e = false.
Proof.
  intros x e. unfold int_of_float.
  destruct (F64.trunc x); [discriminate|].
  destruct x; intros H; inversion H; reflexivity.
Qed.

Lemma send_order_error :
  forall self params ev w e,
    fst (send_order self params ev w) = Raise e -> validation e = false.
Proof.
  intros *. unfold send_order. simpl.
  destruct (server ev _); [discriminate|].
  intros H; inversion H; reflexivity.
Qed.

Lemma send_order_posted :
  forall self params ev w,
    posted (snd (send_order self params ev w)) = posted w ++ [signed self params].
Proof.
  intros. unfold send_order, posted. simpl. rewrite flat_map_app. reflexivity.
Qed.

Lemma after_info_posted :
  forall self w, posted (after_info self w) = posted w.
Proof.
  intros. unfold after_info, posted. simpl. rewrite flat_map_app. simpl.
  apply app_nil_r.
Qed.


(** Every validation error of a run is one of two: the rules are
    missing, or a LIMIT order with a price falls below the minimum
    notional, computed on the rounded quantity and price. *)
Lemma validation_error_inv :
  forall self sym side ot q price tif ev w e,
    fst (place_order self sym side ot q price tif ev w) = Raise e ->
    validation e = true ->
    exists r,
      published_rules self sym ev = Ok r
      /\ ((falsy (step_size r) || falsy (tick_size r) = true
           /\ e = ValueError RulesMissing)
          \/ exists step tick p q' p',
               r = Rules (Some step) (Some tick) (min_notional r)
               /\ F64.truthy step = true
               /\ F64.truthy tick = true
               /\ is_limit ot = true
               /\ price = Some p
               /\ round_down q step = Ok q'
               /\ round_down p tick = Ok p'
               /\ F64.ltb (F64.mul q' p') (or_zero (min_notional r)) = true
               /\ e = ValueError (NotionalTooLow (F64.mul q' p') (min_notional r))).
Proof.
  intros * H V. rewrite place_order_fetch in H.
  destruct (published_rules self sym ev) as [r|e0] eqn:Hr.
  2:{ simpl in H. inversion H; subst e0. apply published_rules_error in Hr.
      congruence. }
  exists r. split; [reflexivity|].
  destruct (falsy (step_size r) || falsy (tick_size r)) eqn:Hf.
  { rewrite submit_rules_missing in H by assumption.
    left. split; [reflexivity|]. simpl in H. congruence. }
  right. destruct (usable_rules r Hf) as (step & tick & Er & Hs & Ht).
  rewrite Er in H. rewrite submit_steps in H by assumption.
  destruct (round_down q step) as [q'|e1] eqn:Hq.
  2:{ simpl in H. inversion H; subst e1. apply round_down_error in Hq. congruence. }
  destruct (round_price price tick) as [price'|e1] eqn:Hp.
  2:{ simpl in H. inversion H; subst e1. apply round_price_error in Hp. congruence. }
  unfold check_notional in H.
  destruct (is_limit ot) eqn:Hl.
  - destruct price' as [p'|]; simpl in H.
    2:{ inversion H; subst e. discriminate. }
    destruct price as [p|]; simpl in Hp; [|discriminate].
    destruct (round_down p tick) as [p''|] eqn:Hd; inversion Hp; subst p''.
    destruct (F64.ltb (F64.mul q' p') (or_zero (min_notional r))) eqn:Hlt.
    + simpl in H. inversion H; subst e.
      exists step, tick, p, q', p'. auto 12.
    + destruct (int_of_float _) as [ts|e1] eqn:Ets.
      2:{ simpl in H. inversion H; subst e1. apply int_of_float_error in Ets.
          congruence. }
      unfold add_limit_fields in H. rewrite Hl in H.
      apply send_order_error in H. congruence.
  - destruct (int_of_float _) as [ts|e1] eqn:Ets.
    2:{ simpl in H. inversion H; subst e1. apply int_of_float_error in Ets.
        congruence. }
    unfold add_limit_fields in H. rewrite Hl in H.
    apply send_order_error in H. congruence.
Qed.

(** [place_order] prints nothing. *)
Lemma place_order_printed :
  forall self sym side ot q price tif ev w,
    printed (snd (place_order self sym side ot q price tif ev w)) = printed w.
Proof.
  intros. rewrite place_order_fetch.
  destruct (published_rules self sym ev) as [r|e]; [|reflexivity].
  destruct (falsy (step_size r) || falsy (tick_size r)) eqn:Hf.
  { rewrite submit_rules_missing by assumption. reflexivity. }
  destruct (usable_rules r Hf) as (step & tick & Er & Hs & Ht).
  rewrite Er, submit_steps by assumption.
  destruct (round_down q step); [|reflexivity].
  destruct (round_price price tick); [|reflexivity].
  destruct (check_notional _ _ _ _); [|reflexivity].
  destruct (int_of_float _); [|reflexivity].
  destruct (add_limit_fields _ _ _ _); reflexivity.
Qed.

(** ** Zero as the default minimum *)

Lemma scan_filters_min_notional :
  forall fs r0 r,
    (forall f, In f fs -> filterType f = "MIN_NOTIONAL"%string ->
               minNotional f = None) ->
    scan_filters fs r0 = Ok r ->
    or_zero (min_notional r0) = F64.zero ->
    or_zero (min_notional r) = F64.zero.
Proof.
  induction fs as [|f fs IH]; intros r0 r Hall H H0; simpl in H.
  - inversion H; subst. assumption.
  - assert (Hrest : forall g, In g fs -> filterType g = "MIN_NOTIONAL"%string ->
                              minNotional g = None)
      by (intros; apply Hall; [right|]; assumption).
    destruct (String.eqb (filterType f) "LOT_SIZE").
    { destruct (stepSize f); [|discriminate]. eapply IH; eauto. }
    destruct (String.eqb (filterType f) "PRICE_FILTER").
    { destruct (tickSize f); [|discriminate]. eapply IH; eauto. }
    destruct (String.eqb (filterType f) "MIN_NOTIONAL") eqn:E.
    + apply String.eqb_eq in E.
      rewrite (Hall f (or_introl eq_refl) E) in H.
      eapply IH; eauto.
    + eapply IH; eauto.
Qed.

Lemma ltb_zero_not_leb :
  forall x, F64.ltb x F64.zero = true -> F64.leb F64.zero x = false.
Proof.
  intros [s|s| |s m e]; unfold F64.ltb, F64.leb, F64.zero, SFltb, SFleb;
    simpl; try discriminate; destruct s; simpl; congruence.
Qed.

(** ** Rejection below the minimum notional (C1, C5, C9) *)

(** C1, as stated, fails: a LIMIT order of 1.2345 at 0.29 on the sample
    exchange (minimum notional 5) is rejected as notional-too-low, but the
    request for the exchange information has been sent by then, so it is
    not true that no request of any kind precedes the rejection. *)
Lemma C1_counterexample :
  let run := place_order Sample.bot "btcusdt" "buy" "limit"
               (F64.dec 12345 4) (Some (F64.dec 29 2)) "GTC" Sample.ev start in
  fst run = Raise (ValueError (NotionalTooLow
                     (F64.mul (F64.dec 1234 3) (F64.dec 28 2))
                     (Some (F64.dec 5 0))))
  /\ sent (snd run) = [info_request Sample.bot]
  /\ sent (snd run) <> [].
Proof.
  vm_compute. repeat split. discriminate.
Qed.

(** C1, amended: a LIMIT order whose rounded quantity times rounded price
    is below the minimum notional is rejected before the order is
    submitted: the only request of the run is the GET that fetches the
    exchange information, and no POST is sent. *)
Theorem C1_rejected_before_the_order_is_sent :
  forall self sym side ot q p tif ev w step tick mn q' p',
    is_limit ot = true ->
    published_rules self sym ev = Ok (Rules (Some step) (Some tick) mn) ->
    F64.truthy step = true ->
    F64.truthy tick = true ->
    round_down q step = Ok q' ->
    round_down p tick = Ok p' ->
    F64.ltb (F64.mul q' p') (or_zero mn) = true ->
    place_order self sym side ot q (Some p) tif ev w =
      (Raise (ValueError (NotionalTooLow (F64.mul q' p') mn)),
       World (sent w ++ [info_request self]) (printed w))
    /\ posted (snd (place_order self sym side ot q (Some p) tif ev w)) = posted w.
Proof.
  intros * Hl Hr Hs Ht Hq Hp Hlt.
  assert (E : place_order self sym side ot q (Some p) tif ev w =
      (Raise (ValueError (NotionalTooLow (F64.mul q' p') mn)), after_info self w)).
  { rewrite place_order_fetch, Hr, submit_steps by assumption.
    rewrite Hq. simpl. rewrite Hp. unfold check_notional. rewrite Hl. simpl.
    rewrite Hlt. reflexivity. }
  split; [exact E|].
  rewrite E. apply after_info_posted.
Qed.

Lemma C1_witness :
  place_order Sample.bot "btcusdt" "buy" "limit"
    (F64.dec 12345 4) (Some (F64.dec 29 2)) "GTC" Sample.ev start =
  (Raise (ValueError (NotionalTooLow (F64.mul (F64.dec 1234 3) (F64.dec 28 2))
                        (Some (F64.dec 5 0)))),
   World (sent start ++ [info_request Sample.bot]) (printed start))
  /\ posted (snd (place_order Sample.bot "btcusdt" "buy" "limit"
                    (F64.dec 12345 4) (Some (F64.dec 29 2)) "GTC" Sample.ev start))
     = posted start.
Proof.
  apply (C1_rejected_before_the_order_is_sent Sample.bot "btcusdt" "buy" "limit"
           (F64.dec 12345 4) (F64.dec 29 2) "GTC" Sample.ev start
           (F64.dec 1 3) (F64.dec 1 2) (Some (F64.dec 5 0))
           (F64.dec 1234 3) (F64.dec 28 2)); vm_compute; reflexivity.
Defined.



(** C9: when the symbol's rules hold no MIN_NOTIONAL filter, or only one
    without a [minNotional] value, the minimum is taken to be 0: whenever
    [place_order] rejects an order as notional-too-low, the bound it used
    is zero and the notional (rounded quantity times rounded price) is
    negative, so no order with a non-negative notional is rejected. *)
Theorem C9_minimum_notional_defaults_to_zero :
  forall self sym side ot q price tif ev w l si,
    server ev (info_request self) = Some (ExchangeInfo l) ->
    find (fun s => String.eqb (symbol s) (upper sym)) l = Some si ->
    (forall f, In f (filters si) -> filterType f = "MIN_NOTIONAL"%string ->
               minNotional f = None) ->
    forall n m,
      fst (place_order self sym side ot q price tif ev w) =
        Raise (ValueError (NotionalTooLow n m)) ->
      or_zero m = F64.zero
      /\ F64.ltb n F64.zero = true
      /\ F64.leb F64.zero n = false
      /\ exists step tick p q' p',
           price = Some p /\ round_down q step = Ok q'
           /\ round_down p tick = Ok p' /\ n = F64.mul q' p'.
Proof.
  intros * Hsrv Hfind Hall n m H.
  apply validation_error_inv in H; [|reflexivity].
  destruct H as (r & Hr & [[_ E] | (s & t & p0 & q0 & p1 & Er & _ & _ & _
                                     & Ep & Hq0 & Hp0 & Hlt0 & E)]);
    [discriminate|].
  inversion E; subst n m.
  assert (Hz : or_zero (min_notional r) = F64.zero).
  { unfold published_rules in Hr. rewrite Hsrv in Hr. simpl in Hr.
    rewrite Hfind in Hr.
    eapply scan_filters_min_notional; [exact Hall | exact Hr | reflexivity]. }
  rewrite Hz in Hlt0.
  repeat split; try assumption.
  - apply ltb_zero_not_leb. assumption.
  - exists s, t, p0, q0, p1. auto.
Qed.

Lemma C9_witness :
  or_zero (Some F64.zero) = F64.zero
  /\ F64.ltb (F64.mul (F64.of_int (-1)) (F64.of_int 2)) F64.zero = true
  /\ F64.leb F64.zero (F64.mul (F64.of_int (-1)) (F64.of_int 2)) = false
  /\ exists step tick p q' p',
       Some (F64.of_int 2) = Some p
       /\ round_down (F64.of_int (-1)) step = Ok q'
       /\ round_down p tick = Ok p'
       /\ F64.mul (F64.of_int (-1)) (F64.of_int 2) = F64.mul q' p'.
Proof.
  apply (C9_minimum_notional_defaults_to_zero Sample.bot "ethusdt" "buy" "limit"
           (F64.of_int (-1)) (Some (F64.of_int 2)) "GTC" Sample.ev start
           [Sample.eth; Sample.btc; Sample.xrp] Sample.eth).
  - reflexivity.
  - reflexivity.
  - intros f Hin Hty. simpl in Hin.
    destruct Hin as [<-|[<-|[<-|[]]]]; try discriminate Hty; reflexivity.
  - vm_compute. reflexivity.
Defined.

(** ** MARKET orders (C10) *)

Lemma market_is_not_limit :
  forall ot, is_market ot = true -> is_limit ot = false.
Proof.
  intros ot H. unfold is_market, is_limit in *.
  apply String.eqb_eq in H. rewrite H. reflexivity.
Qed.

(** What a run of a MARKET order posts. *)
Lemma market_order_posted :
  forall self sym side ot q price tif ev params,
    is_market ot = true ->
    In params (posted (snd (place_order self sym side ot q price tif ev start))) ->
    exists q' ts, params = signed self (base_params self sym side ot q' ts)
      /\ posted (snd (place_order self sym side ot q None tif ev start)) = [params].
Proof.
  intros * Hm Hin. apply market_is_not_limit in Hm.
  rewrite place_order_fetch in *.
  destruct (published_rules self sym ev) as [r|e]; [|contradiction].
  destruct (falsy (step_size r) || falsy (tick_size r)) eqn:Hf.
  { rewrite submit_rules_missing in Hin by assumption. contradiction. }
  destruct (usable_rules r Hf) as (step & tick & Er & Hs & Ht).
  rewrite Er in *. rewrite submit_steps in * by assumption.
  destruct (round_down q step) as [q'|]; [|contradiction].
  simpl (round_price None tick).
  destruct (round_price price tick) as [p'|]; [|contradiction].
  unfold check_notional, add_limit_fields in *. rewrite Hm in *.
  destruct (int_of_float _) as [ts|]; [|contradiction].
  rewrite send_order_posted, after_info_posted in *.
  simpl in Hin. destruct Hin as [<-|[]].
  exists q', ts. split; reflexivity.
Qed.

(** C10: the parameters a MARKET order submits hold neither [price] nor
    [timeInForce], whether or not a price was passed to [place_order], and
    they are the parameters the same order submits without a price. *)
Theorem C10_market_order_omits_price :
  forall self sym side ot q price tif ev params,
    is_market ot = true ->
    In params (posted (snd (place_order self sym side ot q price tif ev start))) ->
    dict_get "price" params = None
    /\ dict_get "timeInForce" params = None
    /\ posted (snd (place_order self sym side ot q None tif ev start)) = [params].
Proof.
  intros * Hm Hin.
  destruct (market_order_posted _ _ _ _ _ _ _ _ _ Hm Hin) as (q' & ts & -> & Hp).
  split; [reflexivity|]. split; [reflexivity | exact Hp].
Qed.

Lemma C10_witness :
  let params :=
    [ ("symbol", VStr "BTCUSDT"); ("side", VStr "BUY"); ("type", VStr "MARKET");
      ("quantity", VStr "1.234"); ("timestamp", VInt 1700000000123);
      ("recvWindow", VInt 5000);
      ("signature",
       VStr "95cf09f6c2347aa54af2f19358dd24c42d5994b35091349cc33a6c59e9acbe01") ]%string in
  dict_get "price" params = None
  /\ dict_get "timeInForce" params = None
  /\ posted (snd (place_order Sample.bot "btcusdt" "buy" "market"
                    (F64.dec 12345 4) None "GTC" Sample.ev start)) = [params].
Proof.
  apply (C10_market_order_omits_price Sample.bot "btcusdt" "buy" "market"
           (F64.dec 12345 4) (Some (F64.dec 29 2)) "GTC" Sample.ev).
  - reflexivity.
  - vm_compute. left. reflexivity.
Defined.

(** ** Missing rules (C6) *)




(** ** Exit status (C8) *)

(** C8: the process ends with status 0, having printed the JSON order
    response, when [place_order] returns, and with status 1 (having
    printed the error) when [place_order] raises any exception. *)
Theorem C8_exit_status :
  forall a ev,
    match fst (place_order (new_client (arg_api_key a) (arg_api_secret a))
                 (arg_symbol a) (arg_side a) (arg_type a) (arg_quantity a)
                 (arg_price a) (arg_timeinforce a) ev start) with
    | Ok order =>
        fst (main a ev) = 0 /\ printed (snd (main a ev)) = [JsonDump order]
    | Raise e =>
        fst (main a ev) = 1 /\ printed (snd (main a ev)) = [ErrorLine e]
    end.
Proof.
  intros a ev. unfold main.
  pose proof (place_order_printed (new_client (arg_api_key a) (arg_api_secret a))
                (arg_symbol a) (arg_side a) (arg_type a) (arg_quantity a)
                (arg_price a) (arg_timeinforce a) ev start) as Hp.
  destruct (place_order _ _ _ _ _ _ _ ev start) as [[order|e] w];
    simpl in *; rewrite Hp; split; reflexivity.
Qed.

(** ** The price of a LIMIT order (C4) *)

(** C4: the validation error for a missing price is never raised.  A
    LIMIT order without a price fails earlier, in the notional test, where
    [quantity * price] multiplies a float by [None]. *)
Theorem C4_price_required_is_never_raised :
  forall self sym side ot q price tif ev w,
    fst (place_order self sym side ot q price tif ev w) <>
    Raise (ValueError PriceRequired).
Proof.
  intros * H.
  apply validation_error_inv in H; [|reflexivity].
  destruct H as (r & _ & [[_ E] | (s & t & p0 & q0 & p1 & _ & _ & _ & _
                                    & _ & _ & _ & _ & E)]);
    discriminate.
Qed.

(** A LIMIT order without a price on the sample exchange: [TypeError]. *)
Lemma limit_without_price_raises_TypeError :
  place_order Sample.bot "btcusdt" "buy" "limit"
    (F64.dec 12345 4) None "GTC" Sample.ev start =
  (Raise TypeError, World [info_request Sample.bot] []).
Proof. vm_compute. reflexivity. Qed.

(** In general: with usable rules, a LIMIT order without a price raises
    [TypeError] as soon as its quantity is rounded. *)
Lemma limit_without_price :
  forall self sym side ot q tif ev w step tick mn q',
    is_limit ot = true ->
    published_rules self sym ev = Ok (Rules (Some step) (Some tick) mn) ->
    F64.truthy step = true ->
    F64.truthy tick = true ->
    round_down q step = Ok q' ->
    place_order self sym side ot q None tif ev w =
      (Raise TypeError, after_info self w).
Proof.
  intros * Hl Hr Hs Ht Hq.
  rewrite place_order_fetch, Hr, submit_steps by assumption.
  rewrite Hq. simpl. unfold check_notional. rewrite Hl. reflexivity.
Qed.

(** A MARKET order runs without a price exactly as it runs with a price
    whose rounding succeeds. *)
Lemma market_order_ignores_price :
  forall self sym side ot q p tif ev w step tick mn p',
    is_market ot = true ->
    published_rules self sym ev = Ok (Rules (Some step) (Some tick) mn) ->
    F64.truthy step = true ->
    F64.truthy tick = true ->
    round_down p tick = Ok p' ->
    place_order self sym side ot q (Some p) tif ev w =
    place_order self sym side ot q None tif ev w.
Proof.
  intros * Hm Hr Hs Ht Hp. apply market_is_not_limit in Hm.
  rewrite !place_order_fetch, Hr, !submit_steps by assumption.
  destruct (round_down q step); [|reflexivity].
  simpl. rewrite Hp.
  unfold check_notional, add_limit_fields. rewrite Hm. reflexivity.
Qed.

(** A MARKET order without a price meets no validation error but that of
    missing rules. *)
Lemma market_order_needs_no_price :
  forall self sym side ot q tif ev w e,
    is_market ot = true ->
    fst (place_order self sym side ot q None tif ev w) = Raise e ->
    validation e = true -> e = ValueError RulesMissing.
Proof.
  intros * Hm H V. apply market_is_not_limit in Hm.
  apply validation_error_inv in H; [|exact V].
  destruct H as (r & _ & [[_ E] | (s & t & p0 & q0 & p1 & _ & _ & _ & Hl & _)]).
  - exact E.
  - congruence.
Qed.

(** ** Rounding (C2, C3) *)

(** C2: [round_down] does not always return the greatest multiple of the
    step below the value.  With value 0.29 and step 0.01, as [float("0.29")]
    and [float("0.01")] are, the quotient is rounded to 28.999999999999996,
    its floor is 28 and the result is 0.28, although 29 times the step is
    0.29 in the same arithmetic, which does not exceed the value.  A LIMIT
    order at 0.29 is therefore submitted at 0.28. *)
Theorem C2_round_down_misses_the_greatest_multiple :
  round_down (F64.dec 29 2) (F64.dec 1 2) = Ok (F64.dec 28 2)
  /\ math_floor (F64.div (F64.dec 29 2) (F64.dec 1 2)) = Ok 28
  /\ int_mul 29 (F64.dec 1 2) = Ok (F64.dec 29 2)
  /\ F64.leb (F64.dec 29 2) (F64.dec 29 2) = true
  /\ F64.ltb (F64.dec 28 2) (F64.dec 29 2) = true
  /\ map (dict_get "price")
         (posted (snd (place_order Sample.bot "btcusdt" "buy" "limit"
                         (F64.of_int 100) (Some (F64.dec 29 2)) "GTC"
                         Sample.ev start))) = [Some (VStr "0.28")].
Proof. vm_compute. repeat split. Qed.

(** C3: [round_down] is not idempotent.  With step 0.01, the value 0.295
    is rounded to 0.29, and 0.29 is rounded to 0.28. *)
Theorem C3_round_down_is_not_idempotent :
  round_down (F64.dec 295 3) (F64.dec 1 2) = Ok (F64.dec 29 2)
  /\ round_down (F64.dec 29 2) (F64.dec 1 2) = Ok (F64.dec 28 2)
  /\ F64.eqb (F64.dec 28 2) (F64.dec 29 2) = false
  /\ F64.ltb F64.zero (F64.dec 1 2) = true.
Proof. vm_compute. repeat split. Qed.

(** On exact numbers both properties hold: the result is the greatest
    multiple of the step that does not exceed the value, and rounding
    twice is rounding once. *)
Lemma exact_round_down_greatest_multiple :
  forall v s : Q,
    (0 < s)%Q ->
    exists k : Z,
      (Exact.round_down v s == inject_Z k * s)%Q
      /\ (inject_Z k * s <= v)%Q
      /\ (v < inject_Z (k + 1) * s)%Q.
Proof.
  intros v s Hs. exists (Qfloor (v / s)). split; [reflexivity|].
  assert (Hne : ~ (s == 0)%Q) by (intros E; rewrite E in Hs; discriminate).
  split.
  - apply Qle_trans with ((v / s) * s)%Q.
    + apply Qmult_le_compat_r; [apply Qfloor_le | apply Qlt_le_weak; exact Hs].
    + rewrite Qmult_comm, Qmult_div_r by exact Hne. apply Qle_refl.
  - apply Qle_lt_trans with ((v / s) * s)%Q.
    + rewrite Qmult_comm, Qmult_div_r by exact Hne. apply Qle_refl.
    + apply Qmult_lt_compat_r; [exact Hs | apply Qlt_floor].
Qed.

Lemma exact_round_down_idempotent :
  forall v s : Q,
    (0 < s)%Q ->
    (Exact.round_down (Exact.round_down v s) s == Exact.round_down v s)%Q.
Proof.
  intros v s Hs. unfold Exact.round_down.
  assert (Hne : ~ (s == 0)%Q) by (intros E; rewrite E in Hs; discriminate).
  rewrite Qdiv_mult_l by exact Hne.
  rewrite Qfloor_Z. reflexivity.
Qed.

(** On the decimals 0.29 and 0.01 the exact rounding keeps 0.29. *)
Example exact_round_down_029 :
  (Exact.round_down (29 # 100) (1 # 100) == 29 # 100)%Q.
Proof. vm_compute. reflexivity. Qed.

(** What [place_order] submits is the rounded quantity and, for a LIMIT
    order, the rounded price. *)
Lemma submitted_values_are_rounded :
  forall self sym side ot q price tif ev w step tick mn params,
    published_rules self sym ev = Ok (Rules (Some step) (Some tick) mn) ->
    F64.truthy step = true ->
    F64.truthy tick = true ->
    posted (snd (place_order self sym side ot q price tif ev w)) =
      posted w ++ [params] ->
    exists q',
      round_down q step = Ok q'
      /\ dict_get "quantity" params = Some (VStr (Repr.of_float q'))
      /\ (is_limit ot = true ->
          exists p p', price = Some p /\ round_down p tick = Ok p'
                       /\ dict_get "price" params = Some (VStr (Repr.of_float p'))).
Proof.
  intros * Hr Hs Ht H.
  assert (Hnil : forall l : list dict, posted w = posted w ++ l -> l = [])
    by (intros l E; rewrite <- (app_nil_r (posted w)) in E at 1;
        apply app_inv_head in E; auto).
  rewrite place_order_fetch, Hr, submit_steps in H by assumption.
  destruct (round_down q step) as [q'|];
    [|simpl in H; rewrite after_info_posted in H; apply Hnil in H; discriminate].
  destruct (round_price price tick) as [price'|] eqn:Hp;
    [|simpl in H; rewrite after_info_posted in H; apply Hnil in H; discriminate].
  destruct (check_notional ot q' price' mn) eqn:Hn;
    [|simpl in H; rewrite after_info_posted in H; apply Hnil in H; discriminate].
  destruct (int_of_float _) as [ts|];
    [|simpl in H; rewrite after_info_posted in H; apply Hnil in H; discriminate].
  unfold add_limit_fields in H. unfold check_notional in Hn.
  exists q'. split; [reflexivity|].
  destruct (is_limit ot).
  - destruct price' as [p'|]; [|discriminate].
    rewrite send_order_posted, after_info_posted in H.
    apply app_inv_head in H. inversion H; subst params.
    split; [reflexivity|]. intros _.
    destruct price as [p|]; simpl in Hp; [|discriminate].
    destruct (round_down p tick) as [p''|] eqn:Hd; inversion Hp; subst p''.
    exists p, p'. split; [reflexivity|]. split; [exact Hd | reflexivity].
  - rewrite send_order_posted, after_info_posted in H.
    apply app_inv_head in H. inversion H; subst params.
    split; [reflexivity | discriminate].
Qed.

(** ** Signatures (C7) *)

(** C7, as stated, fails: the two dictionaries below are equal (they hold
    the same values under the same keys) and are signed with the same
    secret, but [urlencode] walks each in its own insertion order, so the
    query strings and the signatures differ. *)
Lemma C7_counterexample :
  let p1 := [("symbol", VStr "BTCUSDT"); ("side", VStr "BUY")]%string in
  let p2 := [("side", VStr "BUY"); ("symbol", VStr "BTCUSDT")]%string in
  dict_eqb p1 p2 = true
  /\ Url.urlencode p1 = "symbol=BTCUSDT&side=BUY"%string
  /\ Url.urlencode p2 = "side=BUY&symbol=BTCUSDT"%string
  /\ _sign Sample.bot p1 <> _sign Sample.bot p2.
Proof.
  vm_compute. repeat split. discriminate.
Qed.

Lemma value_eqb_eq : forall a b, value_eqb a b = true -> a = b.
Proof.
  intros [s|n] [t|m]; simpl; intros H; try discriminate.
  - apply String.eqb_eq in H. congruence.
  - apply Z.eqb_eq in H. congruence.
Qed.

(** The dictionaries [place_order] builds list their keys in one fixed
    order, so two of them that are equal as dictionaries are the same
    list. *)
Lemma built_dict_eqb_eq :
  forall p1 p2,
    built_by_place_order p1 -> built_by_place_order p2 ->
    dict_eqb p1 p2 = true -> p1 = p2.
Proof.
  intros p1 p2 (c1 & sym1 & side1 & ot1 & q1 & ts1 & pr1 & tif1 & E1)
               (c2 & sym2 & side2 & ot2 & q2 & ts2 & pr2 & tif2 & E2) H.
  unfold add_limit_fields in E1, E2.
  destruct (is_limit ot1); [destruct pr1; [|discriminate]|];
    (destruct (is_limit ot2); [destruct pr2; [|discriminate]|]);
    inversion E1; inversion E2; subst p1 p2; clear E1 E2;
    unfold dict_eqb, base_params, dict_update in *; simpl in *;
    try discriminate;
    repeat match type of H with
           | (_ && _) = true => apply andb_true_iff in H; destruct H as [?E H]
           end;
    repeat match goal with
           | E : String.eqb _ _ = true |- _ => apply String.eqb_eq in E; rewrite E
           | E : Z.eqb _ _ = true |- _ => apply Z.eqb_eq in E; rewrite E
           end;
    reflexivity.
Qed.

(** C7, amended: two invocations of [_sign] with equal secret keys return
    equal signatures when the parameter dictionaries hold the same items
    in the same insertion order; for the dictionaries [place_order] itself
    builds, which list their keys in one fixed order, equality as
    dictionaries is enough. *)
Theorem C7_signature_is_deterministic :
  forall self1 self2 p1 p2,
    api_secret self1 = api_secret self2 ->
    p1 = p2
    \/ (built_by_place_order p1 /\ built_by_place_order p2
        /\ dict_eqb p1 p2 = true) ->
    _sign self1 p1 = _sign self2 p2.
Proof.
  intros * Hk [E | (B1 & B2 & E)].
  - unfold _sign. rewrite Hk, E. reflexivity.
  - unfold _sign. rewrite Hk, (built_dict_eqb_eq p1 p2 B1 B2 E). reflexivity.
Qed.

Lemma C7_witness :
  _sign Sample.bot
    (base_params Sample.bot "btcusdt" "buy" "market" (F64.dec 1234 3) 1700000000123)
  = _sign (new_client "another key" "secret")
      (base_params (new_client "another key" "secret") "BTCUSDT" "BUY" "Market"
         (F64.dec 1234 3) 1700000000123).
Proof.
  apply (C7_signature_is_deterministic Sample.bot (new_client "another key" "secret")).
  - reflexivity.
  - right. split; [|split].
    + exists Sample.bot, "btcusdt"%string, "buy"%string, "market"%string,
        (F64.dec 1234 3), 1700000000123, None, "GTC"%string. reflexivity.
    + exists (new_client "another key" "secret"), "BTCUSDT"%string, "BUY"%string,
        "Market"%string, (F64.dec 1234 3), 1700000000123, None, "GTC"%string.
      reflexivity.
    + vm_compute. reflexivity.
Defined.

(** * Further properties of the client *)

(** ** The requests of a run *)

(** A run either stops after the information request with an exception,
    or goes on to post the parameters it has built. *)
Lemma place_order_outcome :
  forall self sym side ot q price tif ev w,
    (exists e, place_order self sym side ot q price tif ev w =
               (Raise e, after_info self w))
    \/ (exists q' price' ts params,
          add_limit_fields ot price' tif
            (base_params self sym side ot q' ts) = Ok params
          /\ place_order self sym side ot q price tif ev w =
             send_order self params ev (after_info self w)).
Proof.
  intros. rewrite place_order_fetch.
  destruct (published_rules self sym ev) as [r|e]; [|left; eauto].
  destruct (falsy (step_size r) || falsy (tick_size r)) eqn:Hf.
  { rewrite submit_rules_missing by assumption. left; eauto. }
  destruct (usable_rules r Hf) as (step & tick & Er & Hs & Ht).
  rewrite Er, submit_steps by assumption.
  destruct (round_down q step) as [q'|]; [|left; eauto].
  destruct (round_price price tick) as [price'|]; [|left; eauto].
  destruct (check_notional _ _ _ _); [|left; eauto].
  destruct (int_of_float _) as [ts|]; [|left; eauto].
  destruct (add_limit_fields _ _ _ _) as [params|] eqn:Ea; [|left; eauto].
  right. exists q', price', ts, params. auto.
Qed.

(** X1: when the request for the exchange information fails (no
    connection, timeout, error status), [place_order] raises the
    exception of [requests] and the order is never sent. *)
Theorem X1_info_request_failure :
  forall self sym side ot q price tif ev w,
    server ev (info_request self) = None ->
    place_order self sym side ot q price tif ev w =
      (Raise RequestException, World (sent w ++ [info_request self]) (printed w)).
Proof.
  intros * H. rewrite place_order_fetch. unfold published_rules.
  rewrite H. reflexivity.
Qed.

(** X2: when the exchange does not list the requested symbol,
    [get_symbol_info] raises [StopIteration] out of [next], and
    [place_order] stops there: the order is never sent. *)
Theorem X2_unknown_symbol :
  forall self sym side ot q price tif ev w l,
    server ev (info_request self) = Some (ExchangeInfo l) ->
    (forall s, In s l -> symbol s <> upper sym) ->
    get_symbol_info self sym ev w = (Raise StopIteration, after_info self w)
    /\ place_order self sym side ot q price tif ev w =
       (Raise StopIteration, after_info self w).
Proof.
  intros * Hsrv Hno.
  assert (Hf : find (fun s => String.eqb (symbol s) (upper sym)) l = None).
  { destruct (find _ l) as [s|] eqn:E; [|reflexivity].
    apply find_some in E as [Hin Heq]. apply String.eqb_eq in Heq.
    exfalso. exact (Hno s Hin Heq). }
  split.
  - unfold get_symbol_info, _request, http, bind, lift, raise, after_info,
      info_request in *. simpl. rewrite Hsrv. simpl. rewrite Hf. reflexivity.
  - rewrite place_order_fetch. unfold published_rules.
    rewrite Hsrv. simpl. rewrite Hf. reflexivity.
Qed.

(** X7: every exception but the one of [requests] guarantees that no
    order was sent: the run then consists of the information request
    alone.  If an order request was sent, [place_order] returned the
    answer of the exchange or raised [RequestException]. *)
Theorem X7_other_errors_send_no_order :
  forall self sym side ot q price tif ev w e,
    fst (place_order self sym side ot q price tif ev w) = Raise e ->
    e <> RequestException ->
    snd (place_order self sym side ot q price tif ev w) = after_info self w
    /\ posted (snd (place_order self sym side ot q price tif ev w)) = posted w.
Proof.
  intros * H Hne.
  destruct (place_order_outcome self sym side ot q price tif ev w)
    as [[e' E] | (q' & p' & ts & params & _ & E)]; rewrite E in *.
  - split; [reflexivity | apply after_info_posted].
  - exfalso. unfold send_order in H. simpl in H.
    destruct (server ev _); [discriminate|]. inversion H. auto.
Qed.

(** ** Letter case *)

Lemma upper_char_idempotent :
  forall c, upper_char (upper_char c) = upper_char c.
Proof.
  intros [[] [] [] [] [] [] [] []]; reflexivity.
Qed.

Lemma upper_idempotent : forall s, upper (upper s) = upper s.
Proof.
  induction s as [|c s IH]; simpl; [reflexivity|].
  rewrite upper_char_idempotent, IH. reflexivity.
Qed.

(** X3: [place_order] reads the symbol, the side and the order type
    through [upper()] only, so their letter case is immaterial: the run for
    ["btcusdt"], ["buy"], ["limit"] is the run for ["BTCUSDT"], ["BUY"],
    ["LIMIT"], request for request. *)
Theorem X3_letter_case_is_immaterial :
  forall self sym side ot q price tif ev w,
    place_order self (upper sym) (upper side) (upper ot) q price tif ev w =
    place_order self sym side ot q price tif ev w.
Proof.
  intros.
  unfold place_order, get_symbol_info, submit, check_notional,
    add_limit_fields, is_limit, base_params.
  rewrite !upper_idempotent. reflexivity.
Qed.

(** ** The base address *)

Lemma rstrip_slash_decompose :
  forall s, exists n, s = (rstrip_slash s ++ slashes n)%string.
Proof.
  induction s as [|c s [n IH]]; [exists O; reflexivity|].
  simpl. destruct (rstrip_slash s) as [|c' kept] eqn:E.
  - simpl in IH. destruct (Ascii.eqb c "/") eqn:Ec.
    + apply Ascii.eqb_eq in Ec. subst c. exists (S n). simpl.
      rewrite IH at 1. reflexivity.
    + exists n. simpl. rewrite IH at 1. reflexivity.
  - exists n. simpl. rewrite IH at 1. reflexivity.
Qed.

Lemma rstrip_slash_no_trailing_slash :
  forall s t, rstrip_slash s <> (t ++ "/")%string.
Proof.
  induction s as [|c s IH]; intros t H; simpl in H.
  - destruct t; discriminate.
  - destruct (rstrip_slash s) as [|c' kept] eqn:E.
    + destruct (Ascii.eqb c "/") eqn:Ec.
      * destruct t; discriminate.
      * destruct t as [|d t]; simpl in H.
        -- inversion H; subst c. discriminate.
        -- inversion H. destruct t; discriminate.
    + destruct t as [|d t]; simpl in H.
      * inversion H.
      * inversion H. apply (IH t). assumption.
Qed.

(** X12: the client stores its base address without trailing slashes:
    the address given to [__init__] is the stored one followed by slashes
    only, and the stored one does not end in a slash.  The URL of a
    request is therefore the address, one slash, and the path. *)
Theorem X12_base_url_has_no_trailing_slash :
  forall key secret url window,
    (exists n, url = (base_url (init key secret url window) ++ slashes n)%string)
    /\ (forall t, base_url (init key secret url window) <> (t ++ "/")%string)
    /\ req_url (info_request (init key secret url window)) =
       (rstrip_slash url ++ "/fapi/v1/exchangeInfo")%string.
Proof.
  intros. simpl. split; [apply rstrip_slash_decompose|].
  split; [apply rstrip_slash_no_trailing_slash | reflexivity].
Qed.

(** ** Numbers that are not finite *)

Lemma round_down_not_finite :
  forall v s, F64.is_finite v = false -> exists e, round_down v s = Raise e.
Proof.
  intros v s Hv. unfold round_down, truediv.
  destruct (F64.truthy s) eqn:Hs; [|eauto].
  assert (Hd : F64.floor (F64.div v s) = None).
  { destruct v; try discriminate; destruct s; try discriminate; reflexivity. }
  unfold math_floor. rewrite Hd. destruct (F64.div v s); eauto.
Qed.

(** X14: a quantity or a price that is NaN or infinite never reaches the
    exchange, whatever the order type: rounding it raises, and the run
    ends after the information request. *)
Theorem X14_non_finite_numbers_are_not_submitted :
  forall self sym side ot q price tif ev w,
    F64.is_finite q = false
    \/ (exists p, price = Some p /\ F64.is_finite p = false) ->
    exists e,
      place_order self sym side ot q price tif ev w =
      (Raise e, after_info self w).
Proof.
  intros * H. rewrite place_order_fetch.
  destruct (published_rules self sym ev) as [r|e]; [|eauto].
  destruct (falsy (step_size r) || falsy (tick_size r)) eqn:Hf.
  { rewrite submit_rules_missing by assumption. eauto. }
  destruct (usable_rules r Hf) as (step & tick & Er & Hs & Ht).
  rewrite Er, submit_steps by assumption.
  destruct (round_down q step) as [q'|e] eqn:Hq; [|eauto].
  destruct H as [Hq0 | (p & -> & Hp)].
  - destruct (round_down_not_finite q step Hq0) as [e He]. congruence.
  - simpl. destruct (round_down_not_finite p tick Hp) as [e He].
    rewrite He. eauto.
Qed.

(** ** The exceptions of a run *)






(** ** The rules of the symbol *)

(** X6: a step size or a tick size of zero counts as missing: the
    validation error for missing rules is raised before any division,
    and the order is not sent. *)
Theorem X6_zero_step_counts_as_missing :
  forall self sym side ot q price tif ev w r z,
    published_rules self sym ev = Ok r ->
    step_size r = Some z \/ tick_size r = Some z ->
    F64.truthy z = false ->
    place_order self sym side ot q price tif ev w =
      (Raise (ValueError RulesMissing), after_info self w).
Proof.
  intros * Hr Hz Ht. rewrite place_order_fetch, Hr.
  apply submit_rules_missing.
  destruct Hz as [Hz|Hz]; rewrite Hz; simpl; rewrite Ht; simpl;
    [reflexivity | apply orb_true_r].
Qed.

(** X4: the loop over the filters reads the entries of type LOT_SIZE,
    PRICE_FILTER and MIN_NOTIONAL only; entries of any other type (such
    as MARKET_LOT_SIZE or PERCENT_PRICE) change nothing, whatever their
    fields. *)
Theorem X4_other_filters_are_ignored :
  forall fs r,
    scan_filters fs r = scan_filters (List.filter relevant fs) r.
Proof.
  induction fs as [|f fs IH]; intros r; [reflexivity|].
  simpl. unfold relevant.
  destruct (String.eqb (filterType f) "LOT_SIZE") eqn:El; simpl.
  { rewrite El. destruct (stepSize f); [apply IH | reflexivity]. }
  destruct (String.eqb (filterType f) "PRICE_FILTER") eqn:Ep; simpl.
  { rewrite El, Ep. destruct (tickSize f); [apply IH | reflexivity]. }
  destruct (String.eqb (filterType f) "MIN_NOTIONAL") eqn:Em; simpl.
  { rewrite El, Ep, Em. apply IH. }
  apply IH.
Qed.

Lemma scan_filters_malformed :
  forall fs r f,
    In f fs ->
    (filterType f = "LOT_SIZE"%string /\ stepSize f = None)
    \/ (filterType f = "PRICE_FILTER"%string /\ tickSize f = None) ->
    scan_filters fs r = Raise (KeyError "stepSize")
    \/ scan_filters fs r = Raise (KeyError "tickSize").
Proof.
  induction fs as [|g fs IH]; intros r f Hin Hf; [contradiction|].
  simpl. destruct Hin as [-> | Hin].
  - destruct Hf as [[Ht Hs] | [Ht Hs]]; rewrite Ht; simpl; rewrite Hs; auto.
  - destruct (String.eqb (filterType g) "LOT_SIZE").
    { destruct (stepSize g); [eapply IH; eauto | auto]. }
    destruct (String.eqb (filterType g) "PRICE_FILTER").
    { destruct (tickSize g); [eapply IH; eauto | auto]. }
    destruct (String.eqb (filterType g) "MIN_NOTIONAL"); eapply IH; eauto.
Qed.

(** X5: when the symbol has a LOT_SIZE entry without [stepSize] or a
    PRICE_FILTER entry without [tickSize], the subscript raises
    [KeyError]: [place_order] fails with it, not with the validation
    error for missing rules, and the order is not sent. *)
Theorem X5_filter_without_its_field :
  forall self sym side ot q price tif ev w l si f,
    server ev (info_request self) = Some (ExchangeInfo l) ->
    find (fun s => String.eqb (symbol s) (upper sym)) l = Some si ->
    In f (filters si) ->
    (filterType f = "LOT_SIZE"%string /\ stepSize f = None)
    \/ (filterType f = "PRICE_FILTER"%string /\ tickSize f = None) ->
    exists k,
      (k = "stepSize"%string \/ k = "tickSize"%string)
      /\ place_order self sym side ot q price tif ev w =
         (Raise (KeyError k), after_info self w).
Proof.
  intros * Hsrv Hfind Hin Hf.
  rewrite place_order_fetch. unfold published_rules.
  rewrite Hsrv. simpl. rewrite Hfind.
  destruct (scan_filters_malformed (filters si) (Rules None None None) f Hin Hf)
    as [E|E]; rewrite E; eauto.
Qed.

(** ** What is sent *)

Lemma dict_set_new_key :
  forall k v d, dict_get k d = None -> dict_set k v d = d ++ [(k, v)].
Proof.
  induction d as [|[k' v'] d IH]; simpl; intros H; [reflexivity|].
  destruct (String.eqb k k'); [discriminate|]. rewrite IH by assumption.
  reflexivity.
Qed.

(** X8: the parameters of every order request are the order fields in a
    fixed order, (symbol, side, type, quantity, timestamp, recvWindow,
    and for a LIMIT order price and timeInForce), followed by the
    signature, which is the HMAC of exactly the fields before it, encoded
    in that order: the exchange can check it by dropping the last
    parameter. *)
Theorem X8_signature_covers_the_sent_fields :
  forall self sym side ot q price tif ev params,
    In params (posted (snd (place_order self sym side ot q price tif ev start))) ->
    exists fields,
      params = fields ++ [("signature"%string, VStr (_sign self fields))]
      /\ map fst fields = order_keys ot
      /\ dict_get "symbol" fields = Some (VStr (upper sym))
      /\ dict_get "side" fields = Some (VStr (upper side))
      /\ dict_get "type" fields = Some (VStr (upper ot))
      /\ dict_get "recvWindow" fields = Some (VInt (recv_window self)).
Proof.
  intros * Hin.
  destruct (place_order_outcome self sym side ot q price tif ev start)
    as [[e E] | (q' & p' & ts & fields & Ea & E)]; rewrite E in Hin.
  - simpl in Hin. contradiction.
  - rewrite send_order_posted, after_info_posted in Hin.
    simpl in Hin. destruct Hin as [<- | []].
    exists fields. unfold add_limit_fields, order_keys in *.
    destruct (is_limit ot).
    + destruct p' as [p'|]; [|discriminate]. inversion Ea; subst fields.
      repeat split; reflexivity.
    + inversion Ea; subst fields. repeat split; reflexivity.
Qed.

(** X9: a LIMIT order that passes the checks is posted with its
    quantity and price rounded down and written by [str], the time in
    force as given, the timestamp in milliseconds and the signature;
    [place_order] returns what the exchange answers, or raises
    [RequestException] when the request fails. *)
Theorem X9_limit_order_is_posted :
  forall self sym side ot q p tif ev w step tick mn q' p' ts,
    is_limit ot = true ->
    published_rules self sym ev = Ok (Rules (Some step) (Some tick) mn) ->
    F64.truthy step = true ->
    F64.truthy tick = true ->
    round_down q step = Ok q' ->
    round_down p tick = Ok p' ->
    F64.ltb (F64.mul q' p') (or_zero mn) = false ->
    int_of_float (F64.mul (clock ev) (F64.of_int 1000)) = Ok ts ->
    let fields :=
      [ ("symbol", VStr (upper sym)); ("side", VStr (upper side));
        ("type", VStr "LIMIT"); ("quantity", VStr (Repr.of_float q'));
        ("timestamp", VInt ts); ("recvWindow", VInt (recv_window self));
        ("price", VStr (Repr.of_float p')); ("timeInForce", VStr tif) ]%string in
    let req :=
      order_request self
        (fields ++ [("signature"%string, VStr (_sign self fields))]) in
    place_order self sym side ot q (Some p) tif ev w =
      (match server ev req with
       | Some body => Ok body
       | None => Raise RequestException
       end,
       World (sent w ++ [info_request self; req]) (printed w)).
Proof.
  intros * Hl Hr Hs Ht Hq Hp Hn Hts fields req.
  assert (Ht' : upper ot = "LIMIT"%string)
    by (apply String.eqb_eq; exact Hl).
  rewrite place_order_fetch, Hr, submit_steps by assumption.
  rewrite Hq. unfold round_price. rewrite Hp.
  unfold check_notional, mul_opt. rewrite Hl. cbv beta iota.
  rewrite Hn, Hts. unfold add_limit_fields. rewrite Hl.
  unfold send_order, after_info, base_params. rewrite Ht'.
  cbn [sent printed]. rewrite <- app_assoc. reflexivity.
Qed.


(** X17: what [get_symbol_info] returns is an entry of the list the
    exchange sent whose name is the requested symbol in upper case, and
    the request for it is the only one made. *)
Theorem X17_symbol_info_is_the_requested_one :
  forall self sym ev w si,
    fst (get_symbol_info self sym ev w) = Ok si ->
    symbol si = upper sym
    /\ (exists l, server ev (info_request self) = Some (ExchangeInfo l)
                  /\ In si l)
    /\ snd (get_symbol_info self sym ev w) = after_info self w.
Proof.
  intros * H.
  unfold get_symbol_info, _request, http, bind, lift, ret, raise in *.
  fold (info_request self) in *. simpl in *.
  change (Request GET (base_url self ++ "/fapi/v1/exchangeInfo")
            (session_headers self) None) with (info_request self) in *.
  destruct (server ev (info_request self)) as [info|]; [|discriminate].
  destruct info as [l|]; simpl in *; [|discriminate].
  destruct (find _ l) as [s|] eqn:Ef; simpl in *; [|discriminate].
  inversion H; subst s.
  apply find_some in Ef as [Hin Heq]. apply String.eqb_eq in Heq.
  split; [exact Heq|]. split; [eauto | reflexivity].
Qed.

(** ** The exit status and the requests *)


(** ** The form of a signature *)

Lemma compress_length :
  forall h block, List.length h = 8%nat ->
    List.length (Sha256.compress h block) = 8%nat.
Proof.
  intros h block Hh. unfold Sha256.compress.
  rewrite length_map, length_combine, Hh. reflexivity.
Qed.

Lemma fold_compress_length :
  forall bs h, List.length h = 8%nat ->
    List.length (fold_left Sha256.compress bs h) = 8%nat.
Proof.
  induction bs as [|b bs IH]; intros h Hh; simpl; [exact Hh|].
  apply IH. apply compress_length. exact Hh.
Qed.

Lemma be_bytes_length :
  forall n x, List.length (Sha256.be_bytes n x) = n.
Proof.
  induction n as [|n IH]; intros x; simpl; [reflexivity|].
  rewrite IH. reflexivity.
Qed.

Lemma be_bytes_range :
  forall n x b, In b (Sha256.be_bytes n x) -> 0 <= b < 256.
Proof.
  induction n as [|n IH]; intros x b H; simpl in H; [contradiction|].
  destruct H as [<- | H]; [|eauto].
  apply Z.mod_pos_bound. lia.
Qed.

Lemma flat_map_be_bytes_length :
  forall l, List.length (flat_map (Sha256.be_bytes 4) l) = (4 * List.length l)%nat.
Proof.
  induction l as [|x l IH]; [reflexivity|].
  change (flat_map (Sha256.be_bytes 4) (x :: l))
    with (Sha256.be_bytes 4 x ++ flat_map (Sha256.be_bytes 4) l).
  rewrite length_app, be_bytes_length, IH. simpl List.length. lia.
Qed.

Lemma digest_length :
  forall msg, List.length (Sha256.digest msg) = 32%nat.
Proof.
  intros. unfold Sha256.digest.
  rewrite flat_map_be_bytes_length, fold_compress_length; [reflexivity|].
  vm_compute. reflexivity.
Qed.

Lemma digest_range :
  forall msg b, In b (Sha256.digest msg) -> 0 <= b < 256.
Proof.
  intros msg b H. unfold Sha256.digest in H.
  apply in_flat_map in H as (x & _ & H).
  eapply be_bytes_range; eassumption.
Qed.

Lemma hex_digit_lower :
  forall d, 0 <= d < 16 -> is_lower_hex (Sha256.hex_digit d) = true.
Proof.
  intros d H.
  assert (E : d = 0 \/ d = 1 \/ d = 2 \/ d = 3 \/ d = 4 \/ d = 5 \/ d = 6
              \/ d = 7 \/ d = 8 \/ d = 9 \/ d = 10 \/ d = 11 \/ d = 12
              \/ d = 13 \/ d = 14 \/ d = 15) by lia.
  repeat (destruct E as [-> | E]; [reflexivity|]). subst d. reflexivity.
Qed.

Lemma string_of_list_length :
  forall l, String.length (string_of_list_ascii l) = List.length l.
Proof.
  induction l as [|c l IH]; simpl; [reflexivity | rewrite IH; reflexivity].
Qed.

Lemma hex_form :
  forall bs,
    (forall b, In b bs -> 0 <= b < 256) ->
    String.length (Sha256.hex bs) = (2 * List.length bs)%nat
    /\ forallb is_lower_hex (list_ascii_of_string (Sha256.hex bs)) = true.
Proof.
  intros bs Hr. unfold Sha256.hex.
  rewrite string_of_list_length, list_ascii_of_string_of_list_ascii.
  induction bs as [|b bs IH]; [split; reflexivity|].
  assert (Hb : 0 <= b < 256) by (apply Hr; left; reflexivity).
  destruct IH as [IHl IHf]; [intros; apply Hr; right; assumption|].
  simpl flat_map. split.
  - simpl List.length. rewrite IHl. lia.
  - simpl forallb. rewrite IHf.
    rewrite !hex_digit_lower; [reflexivity | |].
    + apply Z.mod_pos_bound. lia.
    + split; [apply Z.div_pos; lia | apply Z.div_lt_upper_bound; lia].
Qed.

(** X16: whatever the parameters and the secret, [_sign] returns 64
    characters, each a digit or a letter from [a] to [f]: the lower-case
    hexadecimal text of a 32-byte digest. *)
Theorem X16_signature_is_64_hex_digits :
  forall self params,
    String.length (_sign self params) = 64%nat
    /\ forallb is_lower_hex (list_ascii_of_string (_sign self params)) = true.
Proof.
  intros. unfold _sign, Sha256.hmac.
  match goal with
  | |- context [Sha256.hex (Sha256.digest ?m)] =>
      destruct (hex_form (Sha256.digest m) (digest_range m)) as [Hl Hf];
        rewrite Hl, Hf, digest_length
  end.
  split; reflexivity.
Qed.

(** ** The query string determines the parameters *)















(** ** The hypotheses are met *)

Lemma X1_witness :
  place_order Sample.bot "btcusdt" "buy" "market" (F64.of_int 1) None "GTC"
    Cases.offline start =
  (Raise RequestException,
   World (sent start ++ [info_request Sample.bot]) (printed start)).
Proof.
  apply (X1_info_request_failure Sample.bot "btcusdt" "buy" "market"
           (F64.of_int 1) None "GTC" Cases.offline start).
  reflexivity.
Defined.

Lemma X2_witness :
  get_symbol_info Sample.bot "dogeusdt" Sample.ev start =
    (Raise StopIteration, after_info Sample.bot start)
  /\ place_order Sample.bot "dogeusdt" "buy" "market" (F64.of_int 1) None "GTC"
       Sample.ev start =
     (Raise StopIteration, after_info Sample.bot start).
Proof.
  apply (X2_unknown_symbol Sample.bot "dogeusdt" "buy" "market"
           (F64.of_int 1) None "GTC" Sample.ev start
           [Sample.eth; Sample.btc; Sample.xrp]).
  - reflexivity.
  - intros s Hin. simpl in Hin.
    destruct Hin as [<-|[<-|[<-|[]]]]; discriminate.
Defined.

Lemma X5_witness :
  exists k,
    (k = "stepSize"%string \/ k = "tickSize"%string)
    /\ place_order Sample.bot "adausdt" "buy" "market" (F64.of_int 1) None "GTC"
         Cases.ev start =
       (Raise (KeyError k), after_info Sample.bot start).
Proof.
  apply (X5_filter_without_its_field Sample.bot "adausdt" "buy" "market"
           (F64.of_int 1) None "GTC" Cases.ev start
           [Cases.ada; Cases.sol] Cases.ada (Filter "LOT_SIZE" None None None)).
  - reflexivity.
  - reflexivity.
  - right. left. reflexivity.
  - left. split; reflexivity.
Defined.

Lemma X6_witness :
  place_order Sample.bot "solusdt" "buy" "market" (F64.of_int 1) None "GTC"
    Cases.ev start =
  (Raise (ValueError RulesMissing), after_info Sample.bot start).
Proof.
  apply (X6_zero_step_counts_as_missing Sample.bot "solusdt" "buy" "market"
           (F64.of_int 1) None "GTC" Cases.ev start
           (Rules (Some F64.zero) (Some (F64.dec 1 2)) None) F64.zero).
  - reflexivity.
  - left. reflexivity.
  - reflexivity.
Defined.

Lemma X7_witness :
  snd (place_order Sample.bot "btcusdt" "buy" "limit" (F64.dec 12345 4) None
         "GTC" Sample.ev start) = after_info Sample.bot start
  /\ posted (snd (place_order Sample.bot "btcusdt" "buy" "limit"
                    (F64.dec 12345 4) None "GTC" Sample.ev start)) = posted start.
Proof.
  apply (X7_other_errors_send_no_order Sample.bot "btcusdt" "buy" "limit"
           (F64.dec 12345 4) None "GTC" Sample.ev start TypeError).
  - vm_compute. reflexivity.
  - discriminate.
Defined.

Lemma X8_witness :
  exists fields,
    [ ("symbol", VStr "BTCUSDT"); ("side", VStr "BUY"); ("type", VStr "MARKET");
      ("quantity", VStr "1.234"); ("timestamp", VInt 1700000000123);
      ("recvWindow", VInt 5000);
      ("signature",
       VStr "95cf09f6c2347aa54af2f19358dd24c42d5994b35091349cc33a6c59e9acbe01") ]%string
    = fields ++ [("signature"%string, VStr (_sign Sample.bot fields))]
    /\ map fst fields = order_keys "market"
    /\ dict_get "symbol" fields = Some (VStr (upper "btcusdt"))
    /\ dict_get "side" fields = Some (VStr (upper "buy"))
    /\ dict_get "type" fields = Some (VStr (upper "market"))
    /\ dict_get "recvWindow" fields = Some (VInt (recv_window Sample.bot)).
Proof.
  apply (X8_signature_covers_the_sent_fields Sample.bot "btcusdt" "buy" "market"
           (F64.dec 12345 4) None "GTC" Sample.ev).
  vm_compute. left. reflexivity.
Defined.

Lemma X9_witness :
  let fields :=
    [ ("symbol", VStr (upper "btcusdt")); ("side", VStr (upper "buy"));
      ("type", VStr "LIMIT"); ("quantity", VStr (Repr.of_float (F64.of_int 100)));
      ("timestamp", VInt 1700000000123);
      ("recvWindow", VInt (recv_window Sample.bot));
      ("price", VStr (Repr.of_float (F64.dec 28 2)));
      ("timeInForce", VStr "GTC") ]%string in
  let req :=
    order_request Sample.bot
      (fields ++ [("signature"%string, VStr (_sign Sample.bot fields))]) in
  place_order Sample.bot "btcusdt" "buy" "limit" (F64.of_int 100)
    (Some (F64.dec 29 2)) "GTC" Sample.ev start =
  (match server Sample.ev req with
   | Some body => Ok body
   | None => Raise RequestException
   end,
   World (sent start ++ [info_request Sample.bot; req]) (printed start)).
Proof.
  apply (X9_limit_order_is_posted Sample.bot "btcusdt" "buy" "limit"
           (F64.of_int 100) (F64.dec 29 2) "GTC" Sample.ev start
           (F64.dec 1 3) (F64.dec 1 2) (Some (F64.dec 5 0))
           (F64.of_int 100) (F64.dec 28 2) 1700000000123);
    vm_compute; reflexivity.
Defined.


Lemma X17_witness :
  symbol Sample.btc = upper "btcusdt"
  /\ (exists l, server Sample.ev (info_request Sample.bot) = Some (ExchangeInfo l)
                /\ In Sample.btc l)
  /\ snd (get_symbol_info Sample.bot "btcusdt" Sample.ev start) =
     after_info Sample.bot start.
Proof.
  apply (X17_symbol_info_is_the_requested_one Sample.bot "btcusdt" Sample.ev
           start Sample.btc).
  reflexivity.
Defined.


Lemma X14_witness :
  exists e,
    place_order Sample.bot "btcusdt" "buy" "market" (F64.of_int 1)
      (Some F64.nan) "GTC" Sample.ev start =
    (Raise e, after_info Sample.bot start).
Proof.
  apply (X14_non_finite_numbers_are_not_submitted Sample.bot "btcusdt" "buy"
           "market" (F64.of_int 1) (Some F64.nan) "GTC" Sample.ev start).
  right. exists F64.nan. split; reflexivity.
Defined.

